(** * Booking lifecycle and overlap-aware pricing of the car-rental application

    A shallow embedding of the booking engine of [app.py] (with the tables of
    [models.py] and the forms of [forms.py]): the price parser, the
    availability query, the pricing of the confirmation page, and the request
    handlers that create, edit, pay, review, and administer bookings.

    Conventions of the embedding.
    - A table is a finite map from the primary key [id] to the row.
    - A [datetime.date] is its proleptic Gregorian ordinal; [date.max] is
      9999-12-31, and stepping past it raises [OverflowError].
    - A Python [float] is the rational it denotes: arithmetic is exact and
      the binary rounding of the hardware is not represented.
    - A handler is a function from the request context, the request data
      and the database to a response and the database left behind. *)

From Stdlib Require Import ZArith QArith Qround Qabs Lia Ascii String.
From Stdlib Require Import Decimal DecimalString DecimalN DecimalPos.
From Equations Require Import Equations.
From stdpp Require Import base decidable option list strings gmap fin_maps fin_sets.

Local Open Scope Z_scope.

(** ** Dates *)

(** A [datetime.date], as [date.toordinal()]. *)
Definition date := Z.

(** [date.max.toordinal()], the ordinal of 9999-12-31: the last date that
    exists.  [d + timedelta(days=1)] is [d + 1] below it and raises
    [OverflowError] at it. *)
Definition date_max : date := 3652059.

(** [(a - b).days] *)
Definition days_between (a b : date) : Z := a - b.

(** ** Tables ([models.py]) *)

Module Car.
Record t := mk { price : string }.
End Car.

Module Booking.
Record t := mk {
  user_id : Z;
  car_id : Z;
  pickup_date : date;
  return_date : date;
  notes : option string;
  status : string;
  payment_method : option string;
  payment_status : string }.

Definition set_status (s : string) (b : t) : t :=
  mk (user_id b) (car_id b) (pickup_date b) (return_date b) (notes b)
     s (payment_method b) (payment_status b).

Definition set_dates (p r : date) (n : option string) (b : t) : t :=
  mk (user_id b) (car_id b) p r n
     (status b) (payment_method b) (payment_status b).

Definition set_payment (m : option string) (ps : string) (b : t) : t :=
  mk (user_id b) (car_id b) (pickup_date b) (return_date b) (notes b)
     (status b) m ps.
End Booking.

Module Review.
Record t := mk {
  user_id : Z;
  car_id : Z;
  booking_id : Z;
  rating : string;
  comment : option string }.
End Review.

Record db := mkdb {
  cars : gmap Z Car.t;
  bookings : gmap Z Booking.t;
  reviews : gmap Z Review.t }.

(** The [id] that the table gives to the next inserted row: one more than
    the largest in use, 1 in an empty table. *)
Definition next_id {A} (m : gmap Z A) : Z :=
  1 + map_fold (λ k _ acc, Z.max k acc) 0 m.

(** ** Helper functions of [app.py] *)

Definition is_valid_status (s : option string) : bool :=
  match s with
  | Some s => bool_decide (s ∈ ["Pending"; "Approved"; "Rejected"; "Completed"; "Returned"]%string)
  | None => false
  end.

(** [Booking.status.in_(['Approved', 'Returned', 'Completed'])] *)
Definition blocking (s : string) : bool :=
  bool_decide (s ∈ ["Approved"; "Returned"; "Completed"]%string).

(** [re.sub(r"[^0-9.]", "", price_str)]: the characters of the class
    [[0-9.]] are kept, in order, and every other one is dropped.  A string
    is its UTF-8 bytes here; no byte of a non-ASCII character is in the
    class, so dropping bytes and dropping code points agree. *)
Definition is_digit (c : ascii) : bool :=
  let n := N_of_ascii c in (48 <=? n)%N && (n <=? 57)%N.

Definition is_price_char (c : ascii) : bool :=
  is_digit c || bool_decide (c = "."%char).

Fixpoint re_sub_non_numeric (s : string) : string :=
  match s with
  | EmptyString => EmptyString
  | String c rest =>
      if is_price_char c then String c (re_sub_non_numeric rest)
      else re_sub_non_numeric rest
  end.

(** [float(s)] on a string over [[0-9.]]: digits, optionally a point and
    more digits, with at least one digit in all; anything else is the
    [ValueError] ([None]).  [scan_digits] reads a run of digits and returns
    its value, its length and the unread rest.  The result is the number
    that the digits write; [float] returns the nearest number with 53
    bits, and [inf] for a number beyond its range (about 1.8e308), so
    the two agree where the number written is itself a float:
    on whole numbers up to 2^53 and on halves, quarters and the like. *)
Definition digit_value (c : ascii) : Z := Z.of_N (N_of_ascii c) - 48.

Fixpoint scan_digits (s : string) (acc : Z) (n : nat) : Z * nat * string :=
  match s with
  | String c rest =>
      if is_digit c then scan_digits rest (10 * acc + digit_value c) (S n)
      else (acc, n, s)
  | EmptyString => (acc, n, s)
  end.

Definition decimal (ip fp : Z) (nf : nat) : Q :=
  Qred (Qmake (ip * 10 ^ Z.of_nat nf + fp) (Z.to_pos (10 ^ Z.of_nat nf))).

Definition float_of_str (s : string) : option Q :=
  let '(ip, ni, rest) := scan_digits s 0 0 in
  match rest with
  | EmptyString =>
      if decide (ni = 0%nat) then None else Some (decimal ip 0 0)
  | String c rest' =>
      if bool_decide (c = "."%char) then
        let '(fp, nf, rest'') := scan_digits rest' 0 0 in
        match rest'' with
        | EmptyString =>
            if decide ((ni + nf)%nat = 0%nat) then None
            else Some (decimal ip fp nf)
        | String _ _ => None
        end
      else None
  end.

Definition parse_price (price_str : string) : Q :=
  if decide (price_str = ""%string) then 0%Q
  else match float_of_str (re_sub_non_numeric price_str) with
       | Some x => x
       | None => 0%Q
       end.

(** [round(x, 2)]: to the nearest hundredth, ties to the even one.  It
    is applied to the exact product of the rate and the days; the code
    rounds the float nearest to that product, which can lie on the other
    side of a tie (a rate of 2.675 for one day gives 2.67 in the code and
    2.68 here) or be [inf].  The two agree where rate, product and
    hundredths are floats, as for a whole rate below 2^53 / days. *)
Definition round_half_even (x : Q) : Z :=
  let f := Qfloor x in
  let r := (x - inject_Z f)%Q in
  match (r ?= 1 # 2)%Q with
  | Lt => f
  | Gt => f + 1
  | Eq => if Z.even f then f else f + 1
  end.

Definition round2 (x : Q) : Q :=
  Qred (Qmake (round_half_even (x * 100)) 100).

(** ** Availability query

    The filter shared by [book] (no booking excluded), [confirmation] and
    [admin_update_booking_status] (the booking itself excluded):
    same car, blocking status, [return_date >= pickup] and
    [pickup_date <= return]. *)
Definition overlap_filter (car_id : Z) (exclude : option Z)
    (pickup_date return_date : date) (row : Z * Booking.t) : bool :=
  bool_decide (Booking.car_id row.2 = car_id)
  && bool_decide (Some row.1 ≠ exclude)
  && blocking (Booking.status row.2)
  && (Booking.return_date row.2 >=? pickup_date)
  && (Booking.pickup_date row.2 <=? return_date).

Definition conflicting_bookings (d : db) (car_id : Z) (exclude : option Z)
    (pickup_date return_date : date) : list (Z * Booking.t) :=
  filter (λ row, overlap_filter car_id exclude pickup_date return_date row = true)
         (map_to_list (bookings d)).

(** [if conflicting_bookings:] *)
Definition hasConflict (d : db) (car_id : Z) (pickup_date return_date : date)
    (exclude : option Z) : bool :=
  match conflicting_bookings d car_id exclude pickup_date return_date with
  | [] => false
  | _ :: _ => true
  end.

(** ** Pricing ([confirmation]) *)

(** [total_days] of [confirmation] (lines 342-347); the subtraction of two
    dates does not raise, so the [except] branch is never taken. *)
Definition total_days (pickup_date return_date : date) : Z :=
  let total_days := days_between return_date pickup_date + 1 in
  if decide (total_days < 1) then 1 else total_days.

(** The inner [while current_date <= end_date] loop (lines 364-366): the
    day is added to the set, then [current_date += timedelta(days=1)],
    which raises at [date.max]; [None] is that exception. *)
Equations? days_while (current_date end_date : date) (overlapping_days : gset Z)
  : option (gset Z) by wf (Z.to_nat (end_date + 1 - current_date)) lt :=
  days_while current_date end_date overlapping_days
    with decide (current_date ≤ end_date) := {
    | right _ => Some overlapping_days
    | left _ with decide (current_date < date_max) := {
        | left _ => days_while (current_date + 1) end_date
                               ({[current_date]} ∪ overlapping_days)
        | right _ => None } }.
Proof. lia. Qed.

(** The [for other_booking in overlapping_bookings] loop around it. *)
Fixpoint overlapping_days_loop (booking : Booking.t)
    (overlapping_bookings : list (Z * Booking.t)) (overlapping_days : gset Z)
  : option (gset Z) :=
  match overlapping_bookings with
  | [] => Some overlapping_days
  | other_booking :: rest =>
      let current_date :=
        Z.max (Booking.pickup_date booking) (Booking.pickup_date other_booking.2) in
      let end_date :=
        Z.min (Booking.return_date booking) (Booking.return_date other_booking.2) in
      match days_while current_date end_date overlapping_days with
      | Some overlapping_days' => overlapping_days_loop booking rest overlapping_days'
      | None => None
      end
  end.

(** [days = total_days - len(overlapping_days)], floored at 1. *)
Definition billable_days (total_days : Z) (overlapping_days : gset Z) : Z :=
  let days := total_days - Z.of_nat (size overlapping_days) in
  if decide (days < 1) then 1 else days.

(** [price_per_day = parse_price(car.price if car else '')] *)
Definition price_per_day (d : db) (car_id : Z) : Q :=
  let car := cars d !! car_id in
  parse_price (match car with Some c => Car.price c | None => "" end).

(** The price computed by [confirmation] for the booking stored under
    [booking_id]; [None] is the exception that leaves the loop. *)
Definition confirmation_total (d : db) (booking_id : Z) (booking : Booking.t)
  : option Q :=
  let price_per_day := price_per_day d (Booking.car_id booking) in
  let total_days :=
    total_days (Booking.pickup_date booking) (Booking.return_date booking) in
  let overlapping_bookings :=
    conflicting_bookings d (Booking.car_id booking) (Some booking_id)
      (Booking.pickup_date booking) (Booking.return_date booking) in
  match overlapping_days_loop booking overlapping_bookings ∅ with
  | Some overlapping_days =>
      let days := billable_days total_days overlapping_days in
      Some (round2 (price_per_day * inject_Z days))
  | None => None
  end.

(** ** Requests and responses *)

Module User.
Record t := mk { id : Z; is_admin : bool; is_authenticated : bool }.
End User.

(** The context of a request: who is logged in, and whether the database
    accepts the transaction when the handler commits. *)
Record context := mkctx { current_user : User.t; commit_ok : bool }.

(** What the client gets back: the 404 of [get_or_404], the redirect of
    [login_required], the 500 of an exception that no handler catches, a
    rendered page (the confirmation page carries [total_amount]), a plain
    redirect, a flashed message with its category, the flashed refusal of
    an approval with the bookings it names, or a JSON answer. *)
Inductive response :=
| NotFound
| Unauthorized
| ServerError
| Page (total_amount : option Q)
| Redirect
| Flash (category message : string)
| FlashOverlap (conflict_details : list (Z * date * date))
| Json (success : bool) (code : Z).

(** [db.session.commit()]: the staged rows become the database, all of
    them or, when the commit raises ([None]), none. *)
Definition commit (ctx : context) (staged : db) : option db :=
  if commit_ok ctx then Some staged else None.

(** The test of [admin_required]. *)
Definition is_admin_user (ctx : context) : bool :=
  User.is_authenticated (current_user ctx) && User.is_admin (current_user ctx).

Definition admin_denied : response :=
  Flash "danger" "Access denied. Admin privileges required.".

Definition set_bookings (bs : gmap Z Booking.t) (d : db) : db :=
  mkdb (cars d) bs (reviews d).

Definition update_booking (booking_id : Z) (b : Booking.t) (d : db) : db :=
  set_bookings (<[booking_id := b]> (bookings d)) d.

Module BookingForm.
Record t := mk {
  validate_on_submit : bool;
  car : Z;
  pickup : date;
  return_date : date;
  notes : option string }.
End BookingForm.

Definition book (ctx : context) (form : BookingForm.t) (d : db) : response * db :=
  if negb (User.is_authenticated (current_user ctx)) then (Unauthorized, d) else
  if BookingForm.validate_on_submit form then
    let car_id := BookingForm.car form in
    let pickup_date := BookingForm.pickup form in
    let return_date := BookingForm.return_date form in
    if hasConflict d car_id pickup_date return_date None then
      (Flash "danger" "The selected dates conflict with an existing booking. Please choose different dates.", d)
    else
      let booking :=
        Booking.mk (User.id (current_user ctx)) car_id pickup_date return_date
          (BookingForm.notes form) "Pending" None "Unpaid" in
      match commit ctx (update_booking (next_id (bookings d)) booking d) with
      | Some d' =>
          (Flash "success" "Your booking has been submitted successfully! Please wait for admin approval.", d')
      | None => (ServerError, d)
      end
  else (Page None, d).

Definition confirmation (ctx : context) (booking_id : Z) (d : db) : response * db :=
  if negb (User.is_authenticated (current_user ctx)) then (Unauthorized, d) else
  match bookings d !! booking_id with
  | None => (NotFound, d)
  | Some booking =>
      if bool_decide (Booking.user_id booking ≠ User.id (current_user ctx))
         && negb (User.is_admin (current_user ctx))
      then (Flash "danger" "Access denied.", d)
      else match confirmation_total d booking_id booking with
           | Some total => (Page (Some total), d)
           | None => (ServerError, d)
           end
  end.

(** [if payment_method:] on the form field: present and not empty. *)
Definition truthy (s : option string) : bool :=
  match s with
  | Some s => negb (bool_decide (s = ""%string))
  | None => false
  end.

Definition confirmation_payment (ctx : context) (booking_id : Z)
    (payment_method : option string) (d : db) : response * db :=
  if negb (User.is_authenticated (current_user ctx)) then (Unauthorized, d) else
  match bookings d !! booking_id with
  | None => (NotFound, d)
  | Some booking =>
      if bool_decide (Booking.user_id booking ≠ User.id (current_user ctx)) then
        (Flash "danger" "Access denied.", d)
      else if bool_decide (Booking.status booking ≠ "Approved"%string) then
        (Flash "warning" "Payment can only be made for approved bookings.", d)
      else if truthy payment_method then
        let payment_status :=
          if bool_decide (payment_method = Some "Cash"%string) then "Unpaid"%string
          else Booking.payment_status booking in
        match commit ctx (update_booking booking_id
                 (Booking.set_payment payment_method payment_status booking) d) with
        | Some d' => (Flash "success" "Payment method selected successfully!", d')
        | None => (ServerError, d)
        end
      else (Redirect, d)
  end.

(** [json] is the request body: [None] when there is none (then
    [data.get] raises), else the value under the key ['payment_method']. *)
Definition process_payment (ctx : context) (booking_id : Z)
    (json : option (option string)) (d : db) : response * db :=
  if negb (User.is_authenticated (current_user ctx)) then (Unauthorized, d) else
  match bookings d !! booking_id with
  | None => (NotFound, d)
  | Some booking =>
      if bool_decide (Booking.user_id booking ≠ User.id (current_user ctx)) then
        (Json false 403, d)
      else if bool_decide (Booking.status booking ≠ "Approved"%string) then
        (Json false 400, d)
      else
        match json with
        | None => (Json false 500, d)
        | Some payment_method =>
            match commit ctx (update_booking booking_id
                     (Booking.set_payment payment_method "Paid" booking) d) with
            | Some d' => (Json true 200, d')
            | None => (Json false 500, d)
            end
        end
  end.

(** A date field of the edit form: absent or empty, text that
    [strptime(_, '%Y-%m-%d')] refuses, or text that it reads as a date. *)
Inductive date_field :=
| NoDate
| BadDate
| GoodDate (d : date).

Module EditForm.
Record t := mk {
  pickup_date : date_field;
  return_date : date_field;
  notes : option string }.
End EditForm.

(** [post] is the form of a POST request, [None] for a GET. *)
Definition edit_booking (ctx : context) (booking_id : Z)
    (post : option EditForm.t) (d : db) : response * db :=
  if negb (User.is_authenticated (current_user ctx)) then (Unauthorized, d) else
  match bookings d !! booking_id with
  | None => (NotFound, d)
  | Some booking =>
      if bool_decide (Booking.user_id booking ≠ User.id (current_user ctx)) then
        (Flash "danger" "Access denied.", d)
      else if negb (bool_decide (Booking.status booking ∈ ["Pending"; "Approved"]%string)) then
        (Flash "warning" "You cannot edit a booking that is not pending or approved.", d)
      else
        match post with
        | None => (Page None, d)
        | Some form =>
            match EditForm.pickup_date form, EditForm.return_date form with
            | NoDate, _ | _, NoDate =>
                (Flash "danger" "Pick-up and return dates are required.", d)
            | BadDate, _ | _, BadDate => (ServerError, d)
            | GoodDate pickup_date, GoodDate return_date =>
                match commit ctx (update_booking booking_id
                         (Booking.set_dates pickup_date return_date
                            (EditForm.notes form) booking) d) with
                | Some d' => (Flash "success" "Booking updated successfully!", d')
                | None => (ServerError, d)
                end
            end
        end
  end.

Definition delete_failed : response :=
  Flash "danger" "An error occurred while deleting the booking. Please try again.".

(** The lookup is inside the [try]: the 404 is caught like any exception. *)
Definition delete_booking (ctx : context) (booking_id : Z) (d : db) : response * db :=
  if negb (User.is_authenticated (current_user ctx)) then (Unauthorized, d) else
  match bookings d !! booking_id with
  | None => (delete_failed, d)
  | Some booking =>
      if bool_decide (Booking.user_id booking ≠ User.id (current_user ctx)) then
        (Flash "danger" "Access denied. You can only delete your own bookings.", d)
      else if negb (bool_decide (Booking.status booking ∈ ["Pending"; "Approved"]%string)) then
        (Flash "warning" "You can only delete pending or approved bookings.", d)
      else
        match commit ctx (set_bookings (delete booking_id (bookings d)) d) with
        | Some d' => (Flash "success" "Booking deleted successfully.", d')
        | None => (delete_failed, d)
        end
  end.

Module ReviewForm.
Record t := mk {
  validate_on_submit : bool;
  rating : string;
  comment : string }.
End ReviewForm.

(** [Review.query.filter_by(booking_id=booking_id).first()] *)
Definition existing_review (d : db) (booking_id : Z) : option (Z * Review.t) :=
  head (filter (λ row : Z * Review.t, Review.booking_id row.2 = booking_id)
               (map_to_list (reviews d))).

Definition review (ctx : context) (booking_id : Z) (form : ReviewForm.t)
    (d : db) : response * db :=
  if negb (User.is_authenticated (current_user ctx)) then (Unauthorized, d) else
  match bookings d !! booking_id with
  | None => (NotFound, d)
  | Some booking =>
      if bool_decide (Booking.user_id booking ≠ User.id (current_user ctx)) then
        (Flash "danger" "Access denied.", d)
      else if bool_decide (Booking.status booking ≠ "Returned"%string) then
        (Flash "warning" "You can only review returned bookings.", d)
      else
        match existing_review d booking_id with
        | Some _ => (Flash "info" "You have already reviewed this booking.", d)
        | None =>
            if ReviewForm.validate_on_submit form then
              let review_obj :=
                Review.mk (User.id (current_user ctx)) (Booking.car_id booking)
                  booking_id (ReviewForm.rating form)
                  (if bool_decide (ReviewForm.comment form = ""%string) then None
                   else Some (ReviewForm.comment form)) in
              let staged :=
                mkdb (cars d)
                  (<[booking_id := Booking.set_status "Completed" booking]> (bookings d))
                  (<[next_id (reviews d) := review_obj]> (reviews d)) in
              match commit ctx staged with
              | Some d' => (Flash "success" "Thank you for your review!", d')
              | None => (ServerError, d)
              end
            else (Page None, d)
        end
  end.

(** The text of the refusal names each conflicting booking with its dates. *)
Definition conflict_details (conflicting : list (Z * Booking.t))
  : list (Z * date * date) :=
  (λ cb : Z * Booking.t,
     (cb.1, Booking.pickup_date cb.2, Booking.return_date cb.2)) <$> conflicting.

(** "Validation 2": the message of the refused transition, if any. *)
Definition transition_error (current_status : string) (new_status : option string)
  : option string :=
  let new_in (l : list string) :=
    match new_status with
    | Some s => bool_decide (s ∈ l)
    | None => false
    end in
  if bool_decide (current_status = "Pending"%string) then
    if negb (new_in ["Pending"; "Approved"; "Rejected"]%string)
    then Some "From Pending, you can only approve or reject."%string else None
  else if bool_decide (current_status = "Approved"%string) then
    if negb (new_in ["Approved"; "Returned"]%string)
    then Some "From Approved, you can only mark as Returned."%string else None
  else if bool_decide (current_status = "Rejected"%string) then
    Some "Cannot change status from Rejected (final status)."%string
  else if bool_decide (current_status = "Returned"%string) then
    if new_in ["Pending"; "Approved"; "Rejected"]%string
    then Some "Cannot go back from Returned status."%string else None
  else if bool_decide (current_status = "Completed"%string) then
    Some "Cannot change status from Completed (final status)."%string
  else None.

(** [booking.payment_method is not None and booking.payment_method != ''] *)
Definition has_payment (b : Booking.t) : bool :=
  match Booking.payment_method b with
  | Some m => negb (bool_decide (m = ""%string))
  | None => false
  end.

Definition admin_update_booking_status (ctx : context) (booking_id : Z)
    (new_status : option string) (d : db) : response * db :=
  if negb (is_admin_user ctx) then (admin_denied, d) else
  match bookings d !! booking_id with
  | None => (NotFound, d)
  | Some booking =>
      let current_status := Booking.status booking in
      let has_payment := has_payment booking in
      let conflicting :=
        conflicting_bookings d (Booking.car_id booking) (Some booking_id)
          (Booking.pickup_date booking) (Booking.return_date booking) in
      if bool_decide (new_status = Some "Approved"%string)
         && bool_decide (current_status = "Pending"%string)
         && hasConflict d (Booking.car_id booking) (Booking.pickup_date booking)
              (Booking.return_date booking) (Some booking_id)
      then (FlashOverlap (conflict_details conflicting), d)
      else if bool_decide (new_status = Some "Pending"%string) && has_payment then
        (Flash "warning" "Cannot change status to Pending because a payment method has been selected.", d)
      else
        match transition_error current_status new_status with
        | Some error => (Flash "danger" error, d)
        | None =>
            match new_status with
            | Some s =>
                if is_valid_status new_status then
                  match commit ctx (update_booking booking_id
                           (Booking.set_status s booking) d) with
                  | Some d' => (Flash "success" "Booking status updated successfully!", d')
                  | None => (ServerError, d)
                  end
                else (Flash "danger" "Invalid status.", d)
            | None => (Flash "danger" "Invalid status.", d)
            end
        end
  end.

Definition admin_delete_booking (ctx : context) (booking_id : Z) (d : db)
  : response * db :=
  if negb (is_admin_user ctx) then (admin_denied, d) else
  match bookings d !! booking_id with
  | None => (delete_failed, d)
  | Some booking =>
      let staged :=
        mkdb (cars d) (delete booking_id (bookings d))
          (filter (λ row : Z * Review.t, Review.booking_id row.2 ≠ booking_id)
                  (reviews d)) in
      match commit ctx staged with
      | Some d' => (Flash "success" "Booking deleted successfully.", d')
      | None => (delete_failed, d)
      end
  end.

Definition admin_delete_car (ctx : context) (car_id : Z) (d : db) : response * db :=
  if negb (is_admin_user ctx) then (admin_denied, d) else
  match cars d !! car_id with
  | None => (NotFound, d)
  | Some car =>
      let staged :=
        mkdb (delete car_id (cars d))
          (filter (λ row : Z * Booking.t, Booking.car_id row.2 ≠ car_id) (bookings d))
          (filter (λ row : Z * Review.t, Review.car_id row.2 ≠ car_id) (reviews d)) in
      match commit ctx staged with
      | Some d' => (Flash "success" "Car and all related data deleted successfully!", d')
      | None => (ServerError, d)
      end
  end.

Module CarForm.
Record t := mk { validate_on_submit : bool; price : string }.
End CarForm.

Definition admin_add_car (ctx : context) (form : CarForm.t) (d : db) : response * db :=
  if negb (is_admin_user ctx) then (admin_denied, d) else
  if CarForm.validate_on_submit form then
    let staged :=
      mkdb (<[next_id (cars d) := Car.mk (CarForm.price form)]> (cars d))
           (bookings d) (reviews d) in
    match commit ctx staged with
    | Some d' => (Flash "success" "Car added successfully!", d')
    | None => (ServerError, d)
    end
  else (Page None, d).

Definition admin_edit_car (ctx : context) (car_id : Z) (form : CarForm.t) (d : db)
  : response * db :=
  if negb (is_admin_user ctx) then (admin_denied, d) else
  match cars d !! car_id with
  | None => (NotFound, d)
  | Some car =>
      if CarForm.validate_on_submit form then
        let staged :=
          mkdb (<[car_id := Car.mk (CarForm.price form)]> (cars d))
               (bookings d) (reviews d) in
        match commit ctx staged with
        | Some d' => (Flash "success" "Car updated successfully!", d')
        | None => (ServerError, d)
        end
      else (Page None, d)
  end.

(** ** The application as a transition system *)

Inductive request :=
| Book (form : BookingForm.t)
| Confirmation (booking_id : Z)
| ConfirmationPayment (booking_id : Z) (payment_method : option string)
| ProcessPayment (booking_id : Z) (json : option (option string))
| EditBooking (booking_id : Z) (post : option EditForm.t)
| DeleteBooking (booking_id : Z)
| SubmitReview (booking_id : Z) (form : ReviewForm.t)
| AdminUpdateBookingStatus (booking_id : Z) (new_status : option string)
| AdminDeleteBooking (booking_id : Z)
| AdminDeleteCar (car_id : Z)
| AdminAddCar (form : CarForm.t)
| AdminEditCar (car_id : Z) (form : CarForm.t).

Definition handle (ctx : context) (req : request) (d : db) : response * db :=
  match req with
  | Book form => book ctx form d
  | Confirmation booking_id => confirmation ctx booking_id d
  | ConfirmationPayment booking_id payment_method =>
      confirmation_payment ctx booking_id payment_method d
  | ProcessPayment booking_id json => process_payment ctx booking_id json d
  | EditBooking booking_id post => edit_booking ctx booking_id post d
  | DeleteBooking booking_id => delete_booking ctx booking_id d
  | SubmitReview booking_id form => review ctx booking_id form d
  | AdminUpdateBookingStatus booking_id new_status =>
      admin_update_booking_status ctx booking_id new_status d
  | AdminDeleteBooking booking_id => admin_delete_booking ctx booking_id d
  | AdminDeleteCar car_id => admin_delete_car ctx car_id d
  | AdminAddCar form => admin_add_car ctx form d
  | AdminEditCar car_id form => admin_edit_car ctx car_id form d
  end.

(** The database before the first request: no row in any table. *)
Definition empty_db : db := mkdb ∅ ∅ ∅.

Inductive reachable : db → Prop :=
| reachable_empty : reachable empty_db
| reachable_step ctx req d :
    reachable d → reachable (handle ctx req d).2.

(** Running a list of requests, each in its context, from a database. *)
Definition run (trace : list (context * request)) (d : db) : db :=
  foldl (λ d step, (handle step.1 step.2 d).2) d trace.

(** What a request changes when it changes anything: one rule for each
    handler that commits, with the checks the handler has passed. *)
Inductive effect (ctx : context) (d : db) : request → db → Prop :=
| effect_book form :
    hasConflict d (BookingForm.car form) (BookingForm.pickup form)
      (BookingForm.return_date form) None = false →
    effect ctx d (Book form)
      (update_booking (next_id (bookings d))
         (Booking.mk (User.id (current_user ctx)) (BookingForm.car form)
            (BookingForm.pickup form) (BookingForm.return_date form)
            (BookingForm.notes form) "Pending" None "Unpaid") d)
| effect_confirmation_payment id b m :
    bookings d !! id = Some b →
    Booking.user_id b = User.id (current_user ctx) →
    Booking.status b = "Approved"%string →
    m ≠ ""%string →
    effect ctx d (ConfirmationPayment id (Some m))
      (update_booking id
         (Booking.set_payment (Some m)
            (if bool_decide (m = "Cash"%string) then "Unpaid"%string
             else Booking.payment_status b) b) d)
| effect_process_payment id b m :
    bookings d !! id = Some b →
    Booking.user_id b = User.id (current_user ctx) →
    Booking.status b = "Approved"%string →
    effect ctx d (ProcessPayment id (Some m))
      (update_booking id (Booking.set_payment m "Paid" b) d)
| effect_edit_booking id b form p r :
    bookings d !! id = Some b →
    Booking.user_id b = User.id (current_user ctx) →
    Booking.status b ∈ ["Pending"; "Approved"]%string →
    EditForm.pickup_date form = GoodDate p →
    EditForm.return_date form = GoodDate r →
    effect ctx d (EditBooking id (Some form))
      (update_booking id (Booking.set_dates p r (EditForm.notes form) b) d)
| effect_delete_booking id b :
    bookings d !! id = Some b →
    Booking.user_id b = User.id (current_user ctx) →
    Booking.status b ∈ ["Pending"; "Approved"]%string →
    effect ctx d (DeleteBooking id) (set_bookings (delete id (bookings d)) d)
| effect_review id b form :
    bookings d !! id = Some b →
    Booking.user_id b = User.id (current_user ctx) →
    Booking.status b = "Returned"%string →
    existing_review d id = None →
    ReviewForm.validate_on_submit form = true →
    effect ctx d (SubmitReview id form)
      (mkdb (cars d)
         (<[id := Booking.set_status "Completed" b]> (bookings d))
         (<[next_id (reviews d) :=
              Review.mk (User.id (current_user ctx)) (Booking.car_id b) id
                (ReviewForm.rating form)
                (if bool_decide (ReviewForm.comment form = ""%string) then None
                 else Some (ReviewForm.comment form))]> (reviews d)))
| effect_admin_update_booking_status id b s :
    is_admin_user ctx = true →
    bookings d !! id = Some b →
    is_valid_status (Some s) = true →
    transition_error (Booking.status b) (Some s) = None →
    (s = "Approved"%string → Booking.status b = "Pending"%string →
     hasConflict d (Booking.car_id b) (Booking.pickup_date b)
       (Booking.return_date b) (Some id) = false) →
    (s = "Pending"%string → has_payment b = false) →
    effect ctx d (AdminUpdateBookingStatus id (Some s))
      (update_booking id (Booking.set_status s b) d)
| effect_admin_delete_booking id b :
    is_admin_user ctx = true →
    bookings d !! id = Some b →
    effect ctx d (AdminDeleteBooking id)
      (mkdb (cars d) (delete id (bookings d))
         (filter (λ row : Z * Review.t, Review.booking_id row.2 ≠ id) (reviews d)))
| effect_admin_delete_car id c :
    is_admin_user ctx = true →
    cars d !! id = Some c →
    effect ctx d (AdminDeleteCar id)
      (mkdb (delete id (cars d))
         (filter (λ row : Z * Booking.t, Booking.car_id row.2 ≠ id) (bookings d))
         (filter (λ row : Z * Review.t, Review.car_id row.2 ≠ id) (reviews d)))
| effect_admin_add_car form :
    is_admin_user ctx = true →
    effect ctx d (AdminAddCar form)
      (mkdb (<[next_id (cars d) := Car.mk (CarForm.price form)]> (cars d))
         (bookings d) (reviews d))
| effect_admin_edit_car id form :
    is_admin_user ctx = true →
    effect ctx d (AdminEditCar id form)
      (mkdb (<[id := Car.mk (CarForm.price form)]> (cars d))
         (bookings d) (reviews d)).

(** ** Notions of the specification *)

(** [day] lies in the inclusive ranges of both bookings. *)
Definition common_day (a b : Booking.t) (day : date) : Prop :=
  Booking.pickup_date a ≤ day ≤ Booking.return_date a
  ∧ Booking.pickup_date b ≤ day ≤ Booking.return_date b.

(** [day] is deducted from the booking stored under [booking_id]: some
    other booking of the same car, in a blocking status, shares it. *)
Definition deducted_day (d : db) (booking_id : Z) (booking : Booking.t)
    (day : date) : Prop :=
  ∃ id other,
    bookings d !! id = Some other
    ∧ id ≠ booking_id
    ∧ Booking.car_id other = Booking.car_id booking
    ∧ Booking.status other ∈ ["Approved"; "Returned"; "Completed"]%string
    ∧ common_day booking other day.

(** No two bookings of one car, both in a blocking status, share a day. *)
Definition no_blocking_overlap (d : db) : Prop :=
  ∀ i j a b,
    bookings d !! i = Some a → bookings d !! j = Some b → i ≠ j →
    Booking.car_id a = Booking.car_id b →
    blocking (Booking.status a) = true → blocking (Booking.status b) = true →
    ∀ day, ¬ common_day a b day.

(** Every booking has one of the five statuses. *)
Definition valid_statuses (d : db) : Prop :=
  ∀ id b, bookings d !! id = Some b →
          is_valid_status (Some (Booking.status b)) = true.

(** Every booking is Unpaid or Paid. *)
Definition valid_payment_statuses (d : db) : Prop :=
  ∀ id b, bookings d !! id = Some b →
          Booking.payment_status b ∈ ["Unpaid"; "Paid"]%string.

(** A booking has at most one review. *)
Definition unique_reviews (d : db) : Prop :=
  ∀ i j r1 r2,
    reviews d !! i = Some r1 → reviews d !! j = Some r2 →
    Review.booking_id r1 = Review.booking_id r2 → i = j.

(** The status changes that the admin handler performs, and the requests
    for the current status that it accepts without a change. *)
Definition admin_transitions : list (string * string) :=
  [("Pending", "Approved"); ("Pending", "Rejected"); ("Approved", "Returned");
   ("Returned", "Completed");
   ("Pending", "Pending"); ("Approved", "Approved"); ("Returned", "Returned")]%string.

(** The admin transitions of the table of the specification; Returned to
    Completed is left to the review. *)
Definition spec_admin_transitions : list (string * string) :=
  [("Pending", "Approved"); ("Pending", "Rejected"); ("Approved", "Returned")]%string.

Definition status_updated : response :=
  Flash "success" "Booking status updated successfully!".

Definition review_thanks : response :=
  Flash "success" "Thank you for your review!".

(** ** Sample requests *)

Definition admin : context := mkctx (User.mk 1 true true) true.
Definition alice : context := mkctx (User.mk 7 false true) true.
Definition bob : context := mkctx (User.mk 8 false true) true.

Definition d_2024_02_01 : date := 738917.
Definition d_2024_02_05 : date := 738921.
Definition d_2024_02_10 : date := 738926.
Definition d_2024_02_11 : date := 738927.
Definition d_2024_02_15 : date := 738931.

Definition a_car : request := AdminAddCar (CarForm.mk true "₱2,000").

Definition a_booking (pickup return_ : date) : request :=
  Book (BookingForm.mk true 1 pickup return_ None).

Definition set_status_to (booking_id : Z) (s : string) : request :=
  AdminUpdateBookingStatus booking_id (Some s).

(** Two bookings of car 1 that end on [date.max]; the first is approved. *)
Definition trace_date_max : list (context * request) :=
  [(admin, a_car);
   (alice, a_booking (date_max - 2) date_max);
   (bob, a_booking (date_max - 1) date_max);
   (admin, set_status_to 1 "Approved")].

Definition db_date_max : db := run trace_date_max empty_db.

Definition edit_dates (booking_id : Z) (pickup return_ : date) : request :=
  EditBooking booking_id
    (Some (EditForm.mk (GoodDate pickup) (GoodDate return_) None)).

(** Two approved bookings of car 1 on disjoint dates, then the owner of
    the second moves its pick-up into the first. *)
Definition trace_overlap : list (context * request) :=
  [(admin, a_car);
   (alice, a_booking d_2024_02_01 d_2024_02_10);
   (admin, set_status_to 1 "Approved");
   (bob, a_booking d_2024_02_11 d_2024_02_15);
   (admin, set_status_to 2 "Approved");
   (bob, edit_dates 2 d_2024_02_05 d_2024_02_15)].

Definition db_overlap : db := run trace_overlap empty_db.

(** The same requests without the edit. *)
Definition db_before_edit : db := run (take 5 trace_overlap) empty_db.

(** The request is not the edit of a booking that has left Pending. *)
Definition edits_pending_only (d : db) (req : request) : Prop :=
  ∀ id post b, req = EditBooking id post → bookings d !! id = Some b →
               Booking.status b = "Pending"%string.

Inductive reachable_editing_pending_only : db → Prop :=
| reachable_epo_empty : reachable_editing_pending_only empty_db
| reachable_epo_step ctx req d :
    reachable_editing_pending_only d → edits_pending_only d req →
    reachable_editing_pending_only (handle ctx req d).2.

(** A booking of car 1 that the admin has approved and marked Returned. *)
Definition trace_returned : list (context * request) :=
  [(admin, a_car);
   (alice, a_booking d_2024_02_01 d_2024_02_10);
   (admin, set_status_to 1 "Approved");
   (admin, set_status_to 1 "Returned")].

Definition db_returned : db := run trace_returned empty_db.

(** An approved booking for which the client sends a payment method that
    the page does not offer. *)
Definition trace_bitcoin : list (context * request) :=
  [(admin, a_car);
   (alice, a_booking d_2024_02_01 d_2024_02_10);
   (admin, set_status_to 1 "Approved");
   (alice, ConfirmationPayment 1 (Some "Bitcoin"%string))].

Definition db_bitcoin : db := run trace_bitcoin empty_db.

(** The same requests before the method is sent. *)
Definition db_approved : db := run (take 3 trace_bitcoin) empty_db.

(** ** Classes of requests *)

(** The requests whose handler is behind [admin_required]. *)
Definition is_admin_request (req : request) : bool :=
  match req with
  | AdminUpdateBookingStatus _ _ | AdminDeleteBooking _ | AdminDeleteCar _
  | AdminAddCar _ | AdminEditCar _ _ => true
  | _ => false
  end.

(** The booking that a customer request is about, for the handlers that
    compare its owner with [current_user.id] and own nothing else. *)
Definition owner_checked_booking (req : request) : option Z :=
  match req with
  | ConfirmationPayment booking_id _ | ProcessPayment booking_id _
  | EditBooking booking_id _ | DeleteBooking booking_id
  | SubmitReview booking_id _ => Some booking_id
  | _ => None
  end.

(** The booking named in the URL of a request, if any. *)
Definition request_booking (req : request) : option Z :=
  match req with
  | Confirmation booking_id
  | ConfirmationPayment booking_id _ | ProcessPayment booking_id _
  | EditBooking booking_id _ | DeleteBooking booking_id
  | SubmitReview booking_id _
  | AdminUpdateBookingStatus booking_id _ | AdminDeleteBooking booking_id =>
      Some booking_id
  | _ => None
  end.

(** One step of the life of a booking: the four changes of status. *)
Definition status_steps : list (string * string) :=
  [("Pending", "Approved"); ("Pending", "Rejected"); ("Approved", "Returned");
   ("Returned", "Completed")]%string.

(** Every review belongs to a booking that exists, is Completed, and has
    the user and the car of the review. *)
Definition reviews_of_completed (d : db) : Prop :=
  ∀ rid r, reviews d !! rid = Some r →
    ∃ b, bookings d !! Review.booking_id r = Some b
         ∧ Booking.status b = "Completed"%string
         ∧ Booking.car_id b = Review.car_id r
         ∧ Booking.user_id b = Review.user_id r.

(** A booking with a payment method or a payment on record has been
    approved: it is Approved, Returned or Completed. *)
Definition paid_only_after_approval (d : db) : Prop :=
  ∀ id b, bookings d !! id = Some b →
    Booking.payment_method b ≠ None ∨ Booking.payment_status b = "Paid"%string →
    blocking (Booking.status b) = true.

(** ** Further helper functions of [app.py] *)









(** [filename.rsplit('.', 1)[1]] when ['.' in filename]: what follows the
    last point; [None] when there is no point. *)
Fixpoint after_last_dot (filename : string) : option string :=
  match filename with
  | EmptyString => None
  | String c rest =>
      match after_last_dot rest with
      | Some ext => Some ext
      | None => if bool_decide (c = "."%char) then Some rest else None
      end
  end.

(** [lower()] on the letters A to Z.  A character outside ASCII never
    becomes one of the letters of the allowed extensions, so for the test
    of [allowed_file] the other characters may stay as they are. *)
Definition lower_char (c : ascii) : ascii :=
  let n := N_of_ascii c in
  if (65 <=? n)%N && (n <=? 90)%N then ascii_of_N (n + 32) else c.

Fixpoint lower (s : string) : string :=
  match s with
  | EmptyString => EmptyString
  | String c rest => String (lower_char c) (lower rest)
  end.

(** [app.config['ALLOWED_EXTENSIONS']] *)
Definition ALLOWED_EXTENSIONS : list string :=
  ["png"; "jpg"; "jpeg"; "gif"; "pdf"]%string.

(** [allowed_file] (lines 37-39). *)
Definition allowed_file (filename : string) : bool :=
  match after_last_dot filename with
  | Some ext => bool_decide (lower ext ∈ ALLOWED_EXTENSIONS)
  | None => false
  end.

(** ** The two calendar endpoints *)

(** The bookings that both endpoints read: those of the car in a blocking
    status. *)
Definition blocking_bookings_of (d : db) (car_id : Z) : list (Z * Booking.t) :=
  filter (λ row : Z * Booking.t,
            Booking.car_id row.2 = car_id
            ∧ blocking (Booking.status row.2) = true)
         (map_to_list (bookings d)).

(** [api_car_booked] (lines 151-186): [None] is the 404 for a car that
    does not exist; else one range for each blocking booking of the car.
    A range is kept as its two dates, which the handler prints with
    [strftime('%Y-%m-%d')]. *)
Definition api_car_booked (car_id : Z) (d : db) : option (list (date * date)) :=
  match cars d !! car_id with
  | None => None
  | Some _ =>
      Some ((λ b : Z * Booking.t,
               (Booking.pickup_date b.2, Booking.return_date b.2))
            <$> blocking_bookings_of d car_id)
  end.

(** The [while current_date <= booking.return_date] loop of
    [get_booked_dates] (lines 200-203): the day is appended, then
    [current_date + timedelta(days=1)], which raises at [date.max]. *)
Equations? booked_while (current_date return_date : date) (booked_dates : list date)
  : option (list date) by wf (Z.to_nat (return_date + 1 - current_date)) lt :=
  booked_while current_date return_date booked_dates
    with decide (current_date ≤ return_date) := {
    | right _ => Some booked_dates
    | left _ with decide (current_date < date_max) := {
        | left _ => booked_while (current_date + 1) return_date
                                 (booked_dates ++ [current_date])
        | right _ => None } }.
Proof. lia. Qed.

Fixpoint booked_dates_loop (bookings : list (Z * Booking.t)) (booked_dates : list date)
  : option (list date) :=
  match bookings with
  | [] => Some booked_dates
  | booking :: rest =>
      match booked_while (Booking.pickup_date booking.2)
              (Booking.return_date booking.2) booked_dates with
      | Some booked_dates' => booked_dates_loop rest booked_dates'
      | None => None
      end
  end.

(** What [get_booked_dates] answers: the redirect of [login_required],
    the 500 of the exception, or the days, which the handler prints with
    [isoformat()]. *)
Inductive booked_dates_response :=
| BookedLogin
| BookedError
| BookedDates (booked_dates : list date).

(** [get_booked_dates] (lines 188-205). *)
Definition get_booked_dates (ctx : context) (car_id : Z) (d : db)
  : booked_dates_response :=
  if negb (User.is_authenticated (current_user ctx)) then BookedLogin else
  match booked_dates_loop (blocking_bookings_of d car_id) [] with
  | Some booked_dates => BookedDates booked_dates
  | None => BookedError
  end.

(** ** Accounts ([User] of [models.py], and its handlers) *)

Module Account.
Record t := mk {
  name : string;
  email : string;
  password : string;
  is_admin : bool }.
End Account.

(** [User.query.filter_by(email=email).first()] *)
Definition find_by_email (users : gmap Z Account.t) (email : string)
  : option (Z * Account.t) :=
  head (filter (λ row : Z * Account.t, Account.email row.2 = email)
               (map_to_list users)).

Module LoginForm.
Record t := mk {
  validate_on_submit : bool;
  email : string;
  password : string }.
End LoginForm.

Module RegistrationForm.
Record t := mk {
  fields_valid : bool;
  name : string;
  email : string;
  password : string }.
End RegistrationForm.

Section Accounts.

(** [werkzeug.security.check_password_hash], of the stored hash and the
    password typed. *)
Variable check_password_hash : string → string → bool.

(** [login] (lines 208-239).  [hashed] is what [generate_password_hash]
    returns in this request; the result is the response, the accounts and
    the user that [login_user] has put in the session, if any. *)
Definition login (commit_ok : bool) (hashed : string) (form : LoginForm.t)
    (users : gmap Z Account.t) (session : option Z)
  : response * gmap Z Account.t * option Z :=
  if LoginForm.validate_on_submit form then
    if bool_decide (LoginForm.email form = "admin@test.com"%string)
       && bool_decide (LoginForm.password form = "password123"%string)
    then
      match find_by_email users "admin@test.com" with
      | None =>
          let id := next_id users in
          let user := Account.mk "Admin" "admin@test.com" hashed true in
          if commit_ok
          then (Flash "success" "Logged in successfully!",
                <[id := user]> users, Some id)
          else (ServerError, users, session)
      | Some (id, user) =>
          let user :=
            Account.mk (Account.name user) (Account.email user)
              (Account.password user) true in
          if commit_ok
          then (Flash "success" "Logged in successfully!",
                <[id := user]> users, Some id)
          else (ServerError, users, session)
      end
    else
      match find_by_email users (LoginForm.email form) with
      | Some (id, user) =>
          if check_password_hash (Account.password user) (LoginForm.password form)
          then (Flash "success" "Logged in successfully!", users, Some id)
          else (Flash "danger" "Invalid email or password.", users, session)
      | None => (Flash "danger" "Invalid email or password.", users, session)
      end
  else (Page None, users, session).

End Accounts.

(** [register] (lines 241-254), with [validate_email] of
    [RegistrationForm]: the form validates when its fields do and no
    account has the email. *)
Definition register (commit_ok : bool) (hashed : string)
    (form : RegistrationForm.t) (users : gmap Z Account.t)
  : response * gmap Z Account.t :=
  let validate_on_submit :=
    RegistrationForm.fields_valid form
    && match find_by_email users (RegistrationForm.email form) with
       | Some _ => false
       | None => true
       end in
  if validate_on_submit then
    let new_user :=
      Account.mk (RegistrationForm.name form) (RegistrationForm.email form)
        hashed false in
    if commit_ok
    then (Flash "success" "Account created successfully! Please log in.",
          <[next_id users := new_user]> users)
    else (ServerError, users)
  else (Page None, users).

(** [admin_delete_user] (lines 865-879). *)
Definition admin_delete_user (ctx : context) (user_id : Z)
    (users : gmap Z Account.t) : response * gmap Z Account.t :=
  if negb (is_admin_user ctx) then (admin_denied, users) else
  match users !! user_id with
  | None => (NotFound, users)
  | Some user =>
      if bool_decide (user_id = User.id (current_user ctx)) then
        (Flash "danger" "You cannot delete your own account.", users)
      else if commit_ok ctx then
        (Flash "success" "User deleted successfully!", delete user_id users)
      else (ServerError, users)
  end.

(** * Properties *)

(** ** The availability query *)

Lemma blocking_spec (s : string) :
  blocking s = true ↔ s ∈ ["Approved"; "Returned"; "Completed"]%string.
Proof. unfold blocking. apply bool_decide_eq_true. Qed.

Lemma blocking_cases (s : string) :
  blocking s = true ↔
  s = "Approved"%string ∨ s = "Returned"%string ∨ s = "Completed"%string.
Proof.
  rewrite blocking_spec. rewrite !elem_of_cons, elem_of_nil. tauto.
Qed.

Lemma overlap_filter_spec car_id exclude pickup return_ (row : Z * Booking.t) :
  overlap_filter car_id exclude pickup return_ row = true ↔
    Booking.car_id row.2 = car_id ∧ Some row.1 ≠ exclude
    ∧ blocking (Booking.status row.2) = true
    ∧ Booking.return_date row.2 >= pickup
    ∧ Booking.pickup_date row.2 <= return_.
Proof.
  unfold overlap_filter.
  rewrite !andb_true_iff, !bool_decide_eq_true, Z.geb_le, Z.leb_le.
  intuition lia.
Qed.

Lemma elem_of_conflicting_bookings d car_id exclude pickup return_ id b :
  (id, b) ∈ conflicting_bookings d car_id exclude pickup return_ ↔
    bookings d !! id = Some b
    ∧ Booking.car_id b = car_id ∧ Some id ≠ exclude
    ∧ blocking (Booking.status b) = true
    ∧ Booking.return_date b >= pickup
    ∧ Booking.pickup_date b <= return_.
Proof.
  unfold conflicting_bookings.
  rewrite list_elem_of_filter, elem_of_map_to_list, overlap_filter_spec.
  simpl. tauto.
Qed.

Lemma hasConflict_true d car_id pickup return_ exclude :
  hasConflict d car_id pickup return_ exclude = true ↔
  ∃ row, row ∈ conflicting_bookings d car_id exclude pickup return_.
Proof.
  unfold hasConflict.
  destruct (conflicting_bookings _ _ _ _ _) as [|row l].
  - split; [discriminate|]. intros [row H]. by apply elem_of_nil in H.
  - split; [|done]. intros _. exists row. apply list_elem_of_here.
Qed.

Lemma hasConflict_false d car_id pickup return_ exclude :
  hasConflict d car_id pickup return_ exclude = false ↔
  conflicting_bookings d car_id exclude pickup return_ = [].
Proof.
  unfold hasConflict.
  by destruct (conflicting_bookings _ _ _ _ _).
Qed.

Lemma hasConflict_exists d car_id pickup return_ exclude :
  hasConflict d car_id pickup return_ exclude = true ↔
  ∃ id existing,
    bookings d !! id = Some existing
    ∧ Booking.car_id existing = car_id
    ∧ Some id ≠ exclude
    ∧ Booking.status existing ∈ ["Approved"; "Returned"; "Completed"]%string
    ∧ Booking.return_date existing >= pickup
    ∧ Booking.pickup_date existing <= return_.
Proof.
  rewrite hasConflict_true. split.
  - intros [[id b] H]. exists id, b.
    apply elem_of_conflicting_bookings in H. by rewrite <- blocking_spec.
  - intros (id & b & H). exists (id, b).
    apply elem_of_conflicting_bookings. by rewrite blocking_spec.
Qed.

Lemma bool_eq_iff (a b : bool) : (a = true ↔ b = true) → a = b.
Proof. destruct a, b; intuition congruence. Qed.

Lemma not_blocking_pending_rejected (s : string) :
  s = "Pending"%string ∨ s = "Rejected"%string → blocking s = false.
Proof. by intros [-> | ->]. Qed.

(** C2. The availability check answers true exactly when some booking of
    the car, other than the excluded one, has a status among Approved,
    Returned, Completed and dates with [return_date >= candidateStart] and
    [pickup_date <= candidateEnd]; a Pending or Rejected booking never
    matters to the answer (deleting it leaves the answer the same); and
    the two handlers that run the check and find a conflict leave every
    table as it was. *)
Theorem hasConflict_spec (d : db) (carId : Z) (candidateStart candidateEnd : date)
    (excludeBookingId : option Z) :
  (hasConflict d carId candidateStart candidateEnd excludeBookingId = true ↔
   ∃ id existing,
     bookings d !! id = Some existing
     ∧ Booking.car_id existing = carId
     ∧ Some id ≠ excludeBookingId
     ∧ Booking.status existing ∈ ["Approved"; "Returned"; "Completed"]%string
     ∧ Booking.return_date existing >= candidateStart
     ∧ Booking.pickup_date existing <= candidateEnd)
  ∧ (∀ id b,
       bookings d !! id = Some b →
       Booking.status b = "Pending"%string ∨ Booking.status b = "Rejected"%string →
       hasConflict (set_bookings (delete id (bookings d)) d)
         carId candidateStart candidateEnd excludeBookingId
       = hasConflict d carId candidateStart candidateEnd excludeBookingId)
  ∧ (∀ ctx form,
       hasConflict d (BookingForm.car form) (BookingForm.pickup form)
         (BookingForm.return_date form) None = true →
       (book ctx form d).2 = d)
  ∧ (∀ ctx id b,
       bookings d !! id = Some b →
       Booking.status b = "Pending"%string →
       hasConflict d (Booking.car_id b) (Booking.pickup_date b)
         (Booking.return_date b) (Some id) = true →
       (admin_update_booking_status ctx id (Some "Approved"%string) d).2 = d).
Proof.
  split; [apply hasConflict_exists|]. split; [|split].
  - intros id b Hb Hst. apply bool_eq_iff. rewrite !hasConflict_exists.
    apply not_blocking_pending_rejected in Hst.
    split; intros (i & e & Hl & Hrest); exists i, e; (split; [|exact Hrest]).
    + simpl in Hl. apply lookup_delete_Some in Hl. tauto.
    + simpl. apply lookup_delete_Some. split; [|done].
      intros <-. rewrite Hb in Hl. injection Hl as <-.
      destruct Hrest as (_ & _ & Hbl & _). apply blocking_spec in Hbl. congruence.
  - intros ctx form Hc. unfold book.
    destruct (negb _); [done|]. destruct (BookingForm.validate_on_submit form); [|done].
    by rewrite Hc.
  - intros ctx id b Hb Hst Hc. unfold admin_update_booking_status.
    destruct (negb _); [done|]. rewrite Hb, Hst, Hc. done.
Qed.

Lemma hasConflict_spec_witness :
  bookings db_before_edit !! 1
  = Some (Booking.mk 7 1 d_2024_02_01 d_2024_02_10 None "Approved" None "Unpaid")
  ∧ hasConflict db_before_edit 1 d_2024_02_05 d_2024_02_15 None = true
  ∧ (book bob (BookingForm.mk true 1 d_2024_02_05 d_2024_02_15 None)
       db_before_edit).2 = db_before_edit.
Proof.
  assert (H : bookings db_before_edit !! 1
    = Some (Booking.mk 7 1 d_2024_02_01 d_2024_02_10 None "Approved" None "Unpaid"))
    by (vm_compute; reflexivity).
  destruct (hasConflict_spec db_before_edit 1 d_2024_02_05 d_2024_02_15 None)
    as (Hiff & _ & Hbook & _).
  assert (Hc : hasConflict db_before_edit 1 d_2024_02_05 d_2024_02_15 None = true).
  { apply Hiff. eexists 1, _. split; [exact H|]. simpl.
    split; [reflexivity|]. split; [discriminate|].
    split; [apply list_elem_of_here|]. split; vm_compute; discriminate. }
  split; [exact H|]. split; [exact Hc|].
  apply (Hbook bob (BookingForm.mk true 1 d_2024_02_05 d_2024_02_15 None) Hc).
Defined.

(** ** Day counting *)

(** C9. The day count of a booking from [start] to [end_] is the number
    of days from the one to the other plus one, [end_ - start + 1], raised
    to 1 when that is less.  So a range that is in order counts both its
    ends, a one-day range counts 1, the count is never less than 1, and it
    is 1 when the end precedes the start. *)
Theorem total_days_inclusive (start end_ : date) :
  total_days start end_ = Z.max 1 (end_ - start + 1)
  ∧ (start ≤ end_ → total_days start end_ = end_ - start + 1)
  ∧ total_days start start = 1
  ∧ 1 ≤ total_days start end_
  ∧ (end_ < start → total_days start end_ = 1).
Proof.
  assert (H : total_days start end_ = Z.max 1 (end_ - start + 1)).
  { unfold total_days, days_between. case_decide; lia. }
  split; [exact H|]. rewrite H.
  split; [lia|]. split; [|lia].
  unfold total_days, days_between. case_decide; lia.
Qed.

Lemma total_days_inclusive_witness :
  d_2024_02_01 ≤ d_2024_02_05
  ∧ total_days d_2024_02_01 d_2024_02_05 = 5
  ∧ d_2024_02_01 < d_2024_02_10
  ∧ total_days d_2024_02_10 d_2024_02_01 = 1.
Proof.
  assert (H1 : d_2024_02_01 ≤ d_2024_02_05) by (vm_compute; discriminate).
  assert (H2 : d_2024_02_01 < d_2024_02_10) by reflexivity.
  split; [exact H1|]. split.
  - destruct (total_days_inclusive d_2024_02_01 d_2024_02_05) as (_ & Hin & _).
    exact (Hin H1).
  - split; [exact H2|].
    destruct (total_days_inclusive d_2024_02_10 d_2024_02_01) as (_ & _ & _ & _ & Hout).
    exact (Hout H2).
Defined.

(** ** The price parser *)

Lemma re_sub_non_numeric_filter (s : string) :
  list_ascii_of_string (re_sub_non_numeric s)
  = filter (λ c, is_price_char c = true) (list_ascii_of_string s).
Proof.
  induction s as [|c s IH]; [done|]. simpl.
  rewrite filter_cons. destruct (is_price_char c) eqn:E.
  - rewrite decide_True by done. simpl. by rewrite IH.
  - rewrite decide_False by congruence. done.
Qed.

Lemma is_digit_value (c : ascii) : is_digit c = true → 0 ≤ digit_value c ≤ 9.
Proof.
  unfold is_digit, digit_value. rewrite andb_true_iff, !N.leb_le. lia.
Qed.

Lemma scan_digits_nonneg (s : string) (acc : Z) (n : nat) :
  0 ≤ acc → 0 ≤ (scan_digits s acc n).1.1.
Proof.
  revert acc n. induction s as [|c s IH]; intros acc n Hacc; simpl; [done|].
  destruct (is_digit c) eqn:E; [|done].
  apply IH. apply is_digit_value in E. lia.
Qed.

Lemma decimal_nonneg (ip fp : Z) (nf : nat) :
  0 ≤ ip → 0 ≤ fp → (0 <= decimal ip fp nf)%Q.
Proof.
  intros Hi Hf. unfold decimal. rewrite Qred_correct.
  unfold Qle. simpl. nia.
Qed.

Lemma float_of_str_nonneg (s : string) (x : Q) :
  float_of_str s = Some x → (0 <= x)%Q.
Proof.
  unfold float_of_str.
  pose proof (scan_digits_nonneg s 0 0 ltac:(lia)) as Hi.
  destruct (scan_digits s 0 0) as [[ip ni] rest]. simpl in Hi.
  destruct rest as [|c rest'].
  - case_decide; [done|]. intros [= <-]. by apply decimal_nonneg.
  - case_bool_decide; [|done].
    pose proof (scan_digits_nonneg rest' 0 0 ltac:(lia)) as Hf.
    destruct (scan_digits rest' 0 0) as [[fp nf] rest'']. simpl in Hf.
    destruct rest''; [|done].
    case_decide; [done|]. intros [= <-]. by apply decimal_nonneg.
Qed.

Lemma parse_price_nonneg (price_str : string) : (0 <= parse_price price_str)%Q.
Proof.
  unfold parse_price. case_decide; [done|].
  destruct (float_of_str _) as [x|] eqn:E; [|done].
  by eapply float_of_str_nonneg.
Qed.

Lemma parse_price_unfold (price_str : string) :
  parse_price price_str
  = match float_of_str (re_sub_non_numeric price_str) with
    | Some x => x
    | None => 0%Q
    end.
Proof.
  unfold parse_price. case_decide as E; [|done]. by rewrite E.
Qed.

(** C8. Parsing a price keeps exactly the digits and decimal points of the
    text, in order, and converts what is kept; the result is 0 when that
    does not convert, and for the empty text.  The three prices of the
    specification parse to 2200.50, 0 and 0. *)
Theorem parse_price_spec :
  (∀ price_str,
     list_ascii_of_string (re_sub_non_numeric price_str)
     = filter (λ c, is_price_char c = true) (list_ascii_of_string price_str)
     ∧ parse_price price_str
       = match float_of_str (re_sub_non_numeric price_str) with
         | Some x => x
         | None => 0%Q
         end)
  ∧ (∀ c, is_price_char c = true ↔
          c ∈ list_ascii_of_string "0123456789.")
  ∧ (parse_price "₱2,200.50abc" == 2200.50)%Q
  ∧ parse_price "" = 0%Q
  ∧ parse_price "N/A" = 0%Q.
Proof.
  split; [|split; [|by vm_compute]].
  - intros s. split; [apply re_sub_non_numeric_filter|apply parse_price_unfold].
  - intros c. split.
    + destruct c as [[] [] [] [] [] [] [] []]; vm_compute; try discriminate;
        intros _; repeat first [apply list_elem_of_here | apply list_elem_of_further].
    + simpl. rewrite !elem_of_cons, elem_of_nil.
      intros H. repeat destruct H as [-> | H]; done.
Qed.

Lemma round_half_even_nonneg (x : Q) : (0 <= x)%Q → 0 ≤ round_half_even x.
Proof.
  intros Hx. unfold round_half_even.
  assert (0 ≤ Qfloor x) by (change 0 with (Qfloor 0); by apply Qfloor_resp_le).
  destruct (_ ?= _)%Q; [destruct (Z.even _)|..]; lia.
Qed.

Lemma round2_nonneg (x : Q) : (0 <= x)%Q → (0 <= round2 x)%Q.
Proof.
  intros Hx. unfold round2. rewrite Qred_correct.
  assert (0 ≤ round_half_even (x * 100)).
  { apply round_half_even_nonneg. by apply Qmult_le_0_compat. }
  unfold Qle. simpl. lia.
Qed.

Lemma billable_days_ge_1 (n : Z) (s : gset Z) : 1 ≤ billable_days n s.
Proof. unfold billable_days. simpl. case_decide; lia. Qed.

(** C10. The parser never returns a negative number, whatever the text:
    what it converts holds no sign character.  So the per-day rate of a
    car is never negative, and neither is a total that the confirmation
    page computes. *)
Theorem parse_price_nonnegative :
  (∀ price_str, (0 <= parse_price price_str)%Q)
  ∧ (∀ price_str,
       ("-"%char ∉ list_ascii_of_string (re_sub_non_numeric price_str))
       ∧ ("+"%char ∉ list_ascii_of_string (re_sub_non_numeric price_str)))
  ∧ (∀ d car_id, (0 <= price_per_day d car_id)%Q)
  ∧ (∀ d booking_id booking total,
       confirmation_total d booking_id booking = Some total → (0 <= total)%Q).
Proof.
  split; [apply parse_price_nonneg|]. split; [|split].
  - intros s. rewrite re_sub_non_numeric_filter.
    split; intros [H _]%list_elem_of_filter; discriminate.
  - intros d car_id. apply parse_price_nonneg.
  - intros d id b total. unfold confirmation_total.
    destruct (overlapping_days_loop _ _ _) as [days|]; [|done].
    intros [= <-]. apply round2_nonneg. apply Qmult_le_0_compat.
    + apply parse_price_nonneg.
    + pose proof (billable_days_ge_1
        (total_days (Booking.pickup_date b) (Booking.return_date b)) days).
      unfold Qle. simpl. lia.
Qed.

Lemma parse_price_nonnegative_witness :
  confirmation_total db_before_edit 2
    (Booking.mk 8 1 d_2024_02_11 d_2024_02_15 None "Approved" None "Unpaid")
  = Some 10000%Q
  ∧ (0 <= 10000)%Q.
Proof.
  assert (H : confirmation_total db_before_edit 2
    (Booking.mk 8 1 d_2024_02_11 d_2024_02_15 None "Approved" None "Unpaid")
    = Some 10000%Q) by (vm_compute; reflexivity).
  split; [exact H|].
  destruct parse_price_nonnegative as (_ & _ & _ & Htotal).
  exact (Htotal _ _ _ _ H).
Defined.

(** What [float] reads and refuses among the texts over digits and points. *)
Example float_of_str_samples :
  float_of_str "5." = Some 5%Q ∧ float_of_str ".5" = Some (1 # 2)%Q
  ∧ float_of_str "007.250" = Some (29 # 4)%Q
  ∧ float_of_str "." = None ∧ float_of_str "" = None
  ∧ float_of_str "1.2.3" = None.
Proof. repeat split; vm_compute; reflexivity. Qed.

(** ** Pricing *)

Lemma days_while_exit (c e : date) (acc : gset Z) :
  e < c → days_while c e acc = Some acc.
Proof.
  intros H. rewrite days_while_equation_1.
  destruct (decide (c ≤ e)); [lia|done].
Qed.

Lemma days_while_step (c e : date) (acc : gset Z) :
  c ≤ e → c < date_max →
  days_while c e acc = days_while (c + 1) e ({[c]} ∪ acc).
Proof.
  intros H1 H2. rewrite days_while_equation_1.
  destruct (decide (c ≤ e)); [|lia]. simpl.
  destruct (decide (c < date_max)); [done|lia].
Qed.

Lemma days_while_overflow (c e : date) (acc : gset Z) :
  c ≤ e → date_max ≤ c → days_while c e acc = None.
Proof.
  intros H1 H2. rewrite days_while_equation_1.
  destruct (decide (c ≤ e)); [|lia]. simpl.
  destruct (decide (c < date_max)); [lia|done].
Qed.

(** Below [date.max] the loop ends and has added the days from
    [current_date] to [end_date]. *)
Lemma days_while_Some (c e : date) (acc : gset Z) :
  e < c ∨ e < date_max →
  ∃ s, days_while c e acc = Some s ∧ ∀ day, day ∈ s ↔ day ∈ acc ∨ c ≤ day ≤ e.
Proof.
  remember (Z.to_nat (e + 1 - c)) as n eqn:Hn.
  revert c acc Hn. induction n as [|n IH]; intros c acc Hn Hb.
  - exists acc. split; [apply days_while_exit; lia|]. intros day. split; [auto|].
    intros [?|?]; [done|lia].
  - assert (c ≤ e) by lia. assert (c < date_max) by lia.
    destruct (IH (c + 1) ({[c]} ∪ acc)) as (s & Hs & Hin); [lia|lia|].
    exists s. split; [by rewrite days_while_step|].
    intros day. rewrite Hin, elem_of_union, elem_of_singleton.
    intuition lia.
Qed.

(** At [date.max] the step past the last day raises. *)
Lemma days_while_None (c e : date) (acc : gset Z) :
  c ≤ e → date_max ≤ e → days_while c e acc = None.
Proof.
  remember (Z.to_nat (date_max - c)) as n eqn:Hn.
  revert c acc Hn. induction n as [|n IH]; intros c acc Hn H1 H2.
  - apply days_while_overflow; lia.
  - rewrite days_while_step by lia. apply IH; lia.
Qed.

Lemma overlapping_days_loop_Some (booking : Booking.t)
    (others : list (Z * Booking.t)) (acc : gset Z) :
  Booking.return_date booking < date_max →
  ∃ s, overlapping_days_loop booking others acc = Some s
       ∧ ∀ day, day ∈ s ↔
           day ∈ acc
           ∨ ∃ other, other ∈ others
               ∧ Booking.pickup_date booking ≤ day ≤ Booking.return_date booking
               ∧ Booking.pickup_date other.2 ≤ day ≤ Booking.return_date other.2.
Proof.
  intros Hmax. revert acc. induction others as [|o rest IH]; intros acc; simpl.
  - exists acc. split; [done|]. intros day. split; [auto|].
    intros [?|(o & Ho & _)]; [done|]. by apply elem_of_nil in Ho.
  - destruct (days_while_Some
                (Z.max (Booking.pickup_date booking) (Booking.pickup_date o.2))
                (Z.min (Booking.return_date booking) (Booking.return_date o.2))
                acc) as (s1 & -> & H1); [lia|].
    destruct (IH s1) as (s & Hs & H2). exists s. split; [done|].
    intros day. rewrite H2, H1. split.
    + intros [[?|?]|(o' & Ho' & ?)]; [by left| |].
      * right. exists o. split; [apply list_elem_of_here|lia].
      * right. exists o'. split; [by apply list_elem_of_further|done].
    + intros [?|(o' & Ho' & ?)]; [by left; left|].
      apply elem_of_cons in Ho' as [->|Ho'].
      * left. right. lia.
      * right. by exists o'.
Qed.

Lemma reachable_run (trace : list (context * request)) (d : db) :
  reachable d → reachable (run trace d).
Proof.
  revert d. induction trace as [|[ctx req] trace IH]; intros d Hd; [done|].
  apply IH. by constructor.
Qed.

Lemma billable_days_max (n : Z) (s : gset Z) :
  billable_days n s = Z.max 1 (n - Z.of_nat (size s)).
Proof. unfold billable_days. simpl. case_decide; lia. Qed.

(** Pricing below [date.max].  For a booking that returns before
    [date.max] the confirmation page computes
    [round(p * billable, 2)] with
    [billable = max(1, total_days - |S|)], where [S] is the set of days
    that some other booking of the same car in a blocking status shares
    with it.  Bookings of other cars, the booking itself and bookings in
    other statuses deduct nothing. *)
Lemma confirmation_total_formula (d : db) (booking_id : Z) (booking : Booking.t) :
  Booking.return_date booking < date_max →
  ∃ S : gset Z,
    (∀ day, day ∈ S ↔ deducted_day d booking_id booking day)
    ∧ confirmation_total d booking_id booking
      = Some (round2 (price_per_day d (Booking.car_id booking)
                      * inject_Z (Z.max 1
                          (total_days (Booking.pickup_date booking)
                                      (Booking.return_date booking)
                           - Z.of_nat (size S))))).
Proof.
  intros Hmax. unfold confirmation_total.
  destruct (overlapping_days_loop_Some booking
              (conflicting_bookings d (Booking.car_id booking) (Some booking_id)
                 (Booking.pickup_date booking) (Booking.return_date booking))
              ∅ Hmax) as (S & -> & HS).
  exists S. split.
  - intros day. rewrite HS. unfold deducted_day, common_day. split.
    + intros [H|([id o] & Ho & Hb & Hd)]; [by apply not_elem_of_empty in H|].
      apply elem_of_conflicting_bookings in Ho as (Hl & Hc & Hne & Hbl & _).
      exists id, o. rewrite <- blocking_spec. simpl in *.
      repeat split; try done; try lia. congruence.
    + intros (id & o & Hl & Hne & Hc & Hbl & Hb & Hd). right.
      exists (id, o). split; [|done].
      apply elem_of_conflicting_bookings. rewrite blocking_spec.
      repeat split; try done; try lia. congruence.
  - by rewrite billable_days_max.
Qed.

(** C3. At [date.max] the confirmation page computes no total.  The state
    is reached by four requests; the second booking, still Pending, shares
    the days 9999-12-30 and 9999-12-31 with the approved first one, so its
    total should be [round(2000 * max(1, 2 - 2), 2) = 2000]; the day loop
    steps past [date.max] instead and the request ends in an error. *)
Theorem confirmation_overflow_at_date_max :
  reachable db_date_max
  ∧ bookings db_date_max !! 2
    = Some (Booking.mk 8 1 (date_max - 1) date_max None "Pending" None "Unpaid")
  ∧ bookings db_date_max !! 1
    = Some (Booking.mk 7 1 (date_max - 2) date_max None "Approved" None "Unpaid")
  ∧ (price_per_day db_date_max 1 == 2000)%Q
  ∧ confirmation bob 2 db_date_max = (ServerError, db_date_max).
Proof.
  split; [apply reachable_run, reachable_empty|].
  repeat split; vm_compute; reflexivity.
Qed.

(** ** Every request either leaves the database alone or has its effect *)

Ltac by_check :=
  repeat match goal with
  | H : negb _ = true |- _ => apply negb_true_iff in H
  | H : negb _ = false |- _ => apply negb_false_iff in H
  | H : bool_decide _ = true |- _ => apply bool_decide_eq_true in H
  | H : bool_decide _ = false |- _ => apply bool_decide_eq_false in H
  | H : ¬ (_ ≠ _) |- _ => apply dec_stable in H
  end.

Lemma book_effect ctx form d :
  (book ctx form d).2 = d ∨ effect ctx d (Book form) (book ctx form d).2.
Proof.
  unfold book.
  destruct (negb _); [by left|].
  destruct (BookingForm.validate_on_submit form); [|by left].
  destruct (hasConflict _ _ _ _ _) eqn:Hc; [by left|].
  unfold commit. destruct (commit_ok ctx); [|by left].
  right. by constructor.
Qed.

Lemma confirmation_unchanged ctx id d : (confirmation ctx id d).2 = d.
Proof.
  unfold confirmation.
  destruct (negb _); [done|].
  destruct (bookings d !! id) as [b|]; [|done].
  destruct (_ && _); [done|].
  by destruct (confirmation_total _ _ _).
Qed.

Lemma confirmation_payment_effect ctx id pm d :
  (confirmation_payment ctx id pm d).2 = d
  ∨ effect ctx d (ConfirmationPayment id pm) (confirmation_payment ctx id pm d).2.
Proof.
  unfold confirmation_payment.
  destruct (negb _); [by left|].
  destruct (bookings d !! id) as [b|] eqn:Hb; [|by left].
  destruct (bool_decide (Booking.user_id b ≠ _)) eqn:Hu; [by left|].
  destruct (bool_decide (Booking.status b ≠ _)) eqn:Hs; [by left|].
  destruct pm as [m|]; [|by left]. simpl.
  destruct (bool_decide (m = ""%string)) eqn:Hm; [by left|]. simpl.
  unfold commit. destruct (commit_ok ctx); [|by left].
  right. by_check. simpl.
  rewrite (bool_decide_ext (Some m = Some "Cash"%string) (m = "Cash"%string))
    by (split; congruence).
  by constructor.
Qed.

Lemma process_payment_effect ctx id json d :
  (process_payment ctx id json d).2 = d
  ∨ effect ctx d (ProcessPayment id json) (process_payment ctx id json d).2.
Proof.
  unfold process_payment.
  destruct (negb _); [by left|].
  destruct (bookings d !! id) as [b|] eqn:Hb; [|by left].
  destruct (bool_decide (Booking.user_id b ≠ _)) eqn:Hu; [by left|].
  destruct (bool_decide (Booking.status b ≠ _)) eqn:Hs; [by left|].
  destruct json as [m|]; [|by left].
  unfold commit. destruct (commit_ok ctx); [|by left].
  right. by_check. by constructor.
Qed.

Lemma edit_booking_effect ctx id post d :
  (edit_booking ctx id post d).2 = d
  ∨ effect ctx d (EditBooking id post) (edit_booking ctx id post d).2.
Proof.
  unfold edit_booking.
  destruct (negb _); [by left|].
  destruct (bookings d !! id) as [b|] eqn:Hb; [|by left].
  destruct (bool_decide (Booking.user_id b ≠ _)) eqn:Hu; [by left|].
  destruct (negb (bool_decide (Booking.status b ∈ _))) eqn:Hs; [by left|].
  destruct post as [form|]; [|by left].
  destruct (EditForm.pickup_date form) as [| |p] eqn:Hp;
    destruct (EditForm.return_date form) as [| |r] eqn:Hr; try by left.
  unfold commit. destruct (commit_ok ctx); [|by left].
  right. by_check. by constructor.
Qed.

Lemma delete_booking_effect ctx id d :
  (delete_booking ctx id d).2 = d
  ∨ effect ctx d (DeleteBooking id) (delete_booking ctx id d).2.
Proof.
  unfold delete_booking.
  destruct (negb _); [by left|].
  destruct (bookings d !! id) as [b|] eqn:Hb; [|by left].
  destruct (bool_decide (Booking.user_id b ≠ _)) eqn:Hu; [by left|].
  destruct (negb (bool_decide (Booking.status b ∈ _))) eqn:Hs; [by left|].
  unfold commit. destruct (commit_ok ctx); [|by left].
  right. by_check. by econstructor.
Qed.

Lemma review_effect ctx id form d :
  (review ctx id form d).2 = d
  ∨ effect ctx d (SubmitReview id form) (review ctx id form d).2.
Proof.
  unfold review.
  destruct (negb _); [by left|].
  destruct (bookings d !! id) as [b|] eqn:Hb; [|by left].
  destruct (bool_decide (Booking.user_id b ≠ _)) eqn:Hu; [by left|].
  destruct (bool_decide (Booking.status b ≠ _)) eqn:Hs; [by left|].
  destruct (existing_review d id) eqn:He; [by left|].
  destruct (ReviewForm.validate_on_submit form) eqn:Hv; [|by left].
  unfold commit. destruct (commit_ok ctx); [|by left].
  right. by_check. by constructor.
Qed.

Lemma admin_update_booking_status_effect ctx id ns d :
  (admin_update_booking_status ctx id ns d).2 = d
  ∨ effect ctx d (AdminUpdateBookingStatus id ns)
      (admin_update_booking_status ctx id ns d).2.
Proof.
  unfold admin_update_booking_status.
  destruct (is_admin_user ctx) eqn:Hadmin; [|by left]. simpl.
  destruct (bookings d !! id) as [b|] eqn:Hb; [|by left].
  destruct (_ && _ && hasConflict _ _ _ _ _) eqn:H0; [by left|].
  destruct (_ && has_payment b) eqn:H1; [by left|].
  destruct (transition_error _ _) eqn:Ht; [by left|].
  destruct ns as [s|]; [|by left].
  destruct (is_valid_status (Some s)) eqn:Hv; [|by left].
  unfold commit. destruct (commit_ok ctx); [|by left].
  right. constructor; try done.
  - intros -> Hp. rewrite Hp in H0. by rewrite !bool_decide_eq_true_2 in H0.
  - intros ->. by rewrite bool_decide_eq_true_2 in H1.
Qed.

Lemma admin_delete_booking_effect ctx id d :
  (admin_delete_booking ctx id d).2 = d
  ∨ effect ctx d (AdminDeleteBooking id) (admin_delete_booking ctx id d).2.
Proof.
  unfold admin_delete_booking.
  destruct (is_admin_user ctx) eqn:Hadmin; [|by left]. simpl.
  destruct (bookings d !! id) as [b|] eqn:Hb; [|by left].
  unfold commit. destruct (commit_ok ctx); [|by left].
  right. by econstructor.
Qed.

Lemma admin_delete_car_effect ctx id d :
  (admin_delete_car ctx id d).2 = d
  ∨ effect ctx d (AdminDeleteCar id) (admin_delete_car ctx id d).2.
Proof.
  unfold admin_delete_car.
  destruct (is_admin_user ctx) eqn:Hadmin; [|by left]. simpl.
  destruct (cars d !! id) as [c|] eqn:Hc; [|by left].
  unfold commit. destruct (commit_ok ctx); [|by left].
  right. by econstructor.
Qed.

Lemma admin_add_car_effect ctx form d :
  (admin_add_car ctx form d).2 = d
  ∨ effect ctx d (AdminAddCar form) (admin_add_car ctx form d).2.
Proof.
  unfold admin_add_car.
  destruct (is_admin_user ctx) eqn:Hadmin; [|by left]. simpl.
  destruct (CarForm.validate_on_submit form); [|by left].
  unfold commit. destruct (commit_ok ctx); [|by left].
  right. by constructor.
Qed.

Lemma admin_edit_car_effect ctx id form d :
  (admin_edit_car ctx id form d).2 = d
  ∨ effect ctx d (AdminEditCar id form) (admin_edit_car ctx id form d).2.
Proof.
  unfold admin_edit_car.
  destruct (is_admin_user ctx) eqn:Hadmin; [|by left]. simpl.
  destruct (cars d !! id) as [c|]; [|by left].
  destruct (CarForm.validate_on_submit form); [|by left].
  unfold commit. destruct (commit_ok ctx); [|by left].
  right. by constructor.
Qed.

Lemma handle_effect ctx req d :
  (handle ctx req d).2 = d ∨ effect ctx d req (handle ctx req d).2.
Proof.
  destruct req; simpl.
  - apply book_effect.
  - left. apply confirmation_unchanged.
  - apply confirmation_payment_effect.
  - apply process_payment_effect.
  - apply edit_booking_effect.
  - apply delete_booking_effect.
  - apply review_effect.
  - apply admin_update_booking_status_effect.
  - apply admin_delete_booking_effect.
  - apply admin_delete_car_effect.
  - apply admin_add_car_effect.
  - apply admin_edit_car_effect.
Qed.

(** ** Invariants of the reachable states *)

Lemma next_id_fresh {A} (m : gmap Z A) : m !! next_id m = None.
Proof.
  unfold next_id.
  assert (H : ∀ k, is_Some (m !! k) → k ≤ map_fold (λ k _ acc, Z.max k acc) 0 m).
  { apply (map_fold_weak_ind
             (λ r (m : gmap Z A), ∀ k, is_Some (m !! k) → k ≤ r)).
    - intros k [x Hx]. by rewrite lookup_empty in Hx.
    - intros i x m' r Hi IH k Hk.
      destruct (decide (i = k)) as [->|Hne]; [lia|].
      rewrite lookup_insert_ne in Hk by done. specialize (IH k Hk). lia. }
  destruct (m !! (1 + _)) eqn:E; [|done].
  specialize (H _ (mk_is_Some _ _ E)). lia.
Qed.

Ltac in_list :=
  repeat first [apply list_elem_of_here | apply list_elem_of_further].

Lemma effect_valid_statuses ctx d req d' :
  effect ctx d req d' → valid_statuses d → valid_statuses d'.
Proof.
  intros Heff Hinv j bj Hj. destruct Heff; simpl in Hj;
    try (apply lookup_insert_Some in Hj as [[<- <-]|[? Hj]]);
    try (apply lookup_delete_Some in Hj as [? Hj]);
    try (apply map_lookup_filter_Some in Hj as [Hj ?]);
    try (by eapply Hinv); simpl; try done.
  all: match goal with H : bookings _ !! _ = Some ?b |- context [Booking.status ?b] =>
         by apply Hinv in H end.
Qed.

Lemma effect_valid_payment_statuses ctx d req d' :
  effect ctx d req d' → valid_payment_statuses d → valid_payment_statuses d'.
Proof.
  intros Heff Hinv j bj Hj. destruct Heff; simpl in Hj;
    try (apply lookup_insert_Some in Hj as [[<- <-]|[? Hj]]);
    try (apply lookup_delete_Some in Hj as [? Hj]);
    try (apply map_lookup_filter_Some in Hj as [Hj ?]);
    try (by eapply Hinv); simpl;
    try case_bool_decide; try (by eapply Hinv); in_list.
Qed.

Lemma existing_review_None d id :
  existing_review d id = None ↔
  ∀ rid r, reviews d !! rid = Some r → Review.booking_id r ≠ id.
Proof.
  unfold existing_review. rewrite head_None. split.
  - intros Hnil rid r Hr Hid.
    assert (Hin : (rid, r) ∈ filter (λ row : Z * Review.t, Review.booking_id row.2 = id)
                    (map_to_list (reviews d))).
    { apply list_elem_of_filter. split; [done|]. by apply elem_of_map_to_list. }
    rewrite Hnil in Hin. by apply elem_of_nil in Hin.
  - intros H.
    destruct (filter _ _) as [|[rid r] l] eqn:E; [done|].
    assert (Hin : (rid, r) ∈ filter (λ row : Z * Review.t, Review.booking_id row.2 = id)
                    (map_to_list (reviews d))) by (rewrite E; apply list_elem_of_here).
    apply list_elem_of_filter in Hin as [HP Hin].
    apply elem_of_map_to_list in Hin. by apply H in Hin.
Qed.

Lemma effect_unique_reviews ctx d req d' :
  effect ctx d req d' → unique_reviews d → unique_reviews d'.
Proof.
  intros Heff Hinv i j r1 r2 H1 H2 Heq. destruct Heff; simpl in *;
    try (by eapply Hinv).
  - match goal with H : existing_review _ _ = None |- _ =>
      rewrite existing_review_None in H; rename H into He end.
    apply lookup_insert_Some in H1 as [[<- <-]|[? H1]];
      apply lookup_insert_Some in H2 as [[<- <-]|[? H2]]; simpl in *.
    + done.
    + by apply He in H2.
    + by apply He in H1.
    + by eapply Hinv.
  - apply map_lookup_filter_Some in H1 as [H1 _].
    apply map_lookup_filter_Some in H2 as [H2 _]. by eapply Hinv.
  - apply map_lookup_filter_Some in H1 as [H1 _].
    apply map_lookup_filter_Some in H2 as [H2 _]. by eapply Hinv.
Qed.

Lemma reachable_ind_effect (P : db → Prop) :
  P empty_db →
  (∀ ctx d req d', reachable d → P d → effect ctx d req d' → P d') →
  ∀ d, reachable d → P d.
Proof.
  intros H0 Hstep d Hd. induction Hd as [|ctx req d Hd IH]; [done|].
  destruct (handle_effect ctx req d) as [-> | Heff]; [done|].
  by eapply Hstep.
Qed.

Lemma reachable_valid_statuses d : reachable d → valid_statuses d.
Proof.
  apply reachable_ind_effect.
  - intros id b H. simpl in H. by rewrite lookup_empty in H.
  - intros. by eapply effect_valid_statuses.
Qed.

Lemma reachable_valid_payment_statuses d : reachable d → valid_payment_statuses d.
Proof.
  apply reachable_ind_effect.
  - intros id b H. simpl in H. by rewrite lookup_empty in H.
  - intros. by eapply effect_valid_payment_statuses.
Qed.

Lemma reachable_unique_reviews d : reachable d → unique_reviews d.
Proof.
  apply reachable_ind_effect.
  - intros i j r1 r2 H. simpl in H. by rewrite lookup_empty in H.
  - intros. by eapply effect_unique_reviews.
Qed.

(** ** Overlap of blocking bookings *)

Lemma common_day_sym a b day : common_day a b day → common_day b a day.
Proof. unfold common_day. tauto. Qed.

Lemma no_blocking_overlap_insert d d' id b' :
  bookings d' = <[id := b']> (bookings d) →
  no_blocking_overlap d →
  (blocking (Booking.status b') = true →
   ∀ j o, bookings d !! j = Some o → j ≠ id →
          Booking.car_id o = Booking.car_id b' →
          blocking (Booking.status o) = true →
          ∀ day, ¬ common_day b' o day) →
  no_blocking_overlap d'.
Proof.
  intros Hd' Hinv Hnew i j a c Hi Hj Hne Hcar Ha Hc day Hday.
  rewrite Hd' in Hi, Hj.
  apply lookup_insert_Some in Hi as [[<- <-]|[Hi' Hi]];
    apply lookup_insert_Some in Hj as [[<- <-]|[Hj' Hj]].
  - done.
  - by eapply (Hnew Ha j c).
  - eapply (Hnew Hc i a); eauto using common_day_sym.
  - by eapply (Hinv i j a c).
Qed.

Lemma no_blocking_overlap_subset d d' :
  (∀ i b, bookings d' !! i = Some b → bookings d !! i = Some b) →
  no_blocking_overlap d → no_blocking_overlap d'.
Proof.
  intros Hsub Hinv i j a c Hi Hj. apply Hinv; by apply Hsub.
Qed.

(** Replacing a booking by one with the same car, dates and status. *)
Lemma no_blocking_overlap_same d d' id b b' :
  bookings d' = <[id := b']> (bookings d) →
  bookings d !! id = Some b →
  Booking.car_id b' = Booking.car_id b →
  Booking.pickup_date b' = Booking.pickup_date b →
  Booking.return_date b' = Booking.return_date b →
  (blocking (Booking.status b') = true → blocking (Booking.status b) = true) →
  no_blocking_overlap d → no_blocking_overlap d'.
Proof.
  intros Hd' Hb Hcar Hp Hr Hst Hinv.
  eapply no_blocking_overlap_insert; [done..|].
  intros Hbl j o Hj Hne Hc Ho day Hday.
  apply (Hinv id j b o Hb Hj) with (day := day); auto; try congruence.
  unfold common_day in *. rewrite <- Hp, <- Hr. done.
Qed.

Lemma hasConflict_false_no_common_day d id b j o day :
  hasConflict d (Booking.car_id b) (Booking.pickup_date b)
    (Booking.return_date b) (Some id) = false →
  bookings d !! j = Some o → j ≠ id →
  Booking.car_id o = Booking.car_id b →
  blocking (Booking.status o) = true →
  ¬ common_day b o day.
Proof.
  intros Hc Hj Hne Hcar Ho [H1 H2].
  apply hasConflict_false in Hc.
  assert (Hin : (j, o) ∈ conflicting_bookings d (Booking.car_id b) (Some id)
                  (Booking.pickup_date b) (Booking.return_date b)).
  { apply elem_of_conflicting_bookings. repeat split; try done; try lia. congruence. }
  rewrite Hc in Hin. by apply elem_of_nil in Hin.
Qed.

Lemma valid_status_cases (s : string) :
  is_valid_status (Some s) = true →
  s = "Pending"%string ∨ s = "Approved"%string ∨ s = "Rejected"%string
  ∨ s = "Completed"%string ∨ s = "Returned"%string.
Proof.
  simpl. rewrite bool_decide_eq_true, !elem_of_cons, elem_of_nil. tauto.
Qed.

(** Every handler keeps blocking bookings of a car apart, the edit of a
    booking that is not Pending excepted. *)
Lemma effect_no_blocking_overlap ctx d req d' :
  effect ctx d req d' →
  valid_statuses d →
  no_blocking_overlap d →
  (∀ id post b, req = EditBooking id post → bookings d !! id = Some b →
                Booking.status b = "Pending"%string) →
  no_blocking_overlap d'.
Proof.
  intros Heff Hvalid Hinv Hedit. destruct Heff.
  - eapply no_blocking_overlap_insert; [done..|]. by intros.
  - eapply no_blocking_overlap_same; eauto.
  - eapply no_blocking_overlap_same; eauto.
  - eapply no_blocking_overlap_insert; [done..|]. simpl.
    rewrite (Hedit id (Some form) b eq_refl) by done. by intros.
  - eapply no_blocking_overlap_subset; [|done]. simpl.
    intros i c Hi. by apply lookup_delete_Some in Hi as [_ ?].
  - eapply no_blocking_overlap_same; eauto. simpl. intros _.
    match goal with H : Booking.status b = _ |- _ => by rewrite H end.
  - match goal with H : bookings d !! id = Some b |- _ =>
      pose proof (valid_status_cases _ (Hvalid _ _ H)) as Hcur end.
    destruct (blocking s) eqn:Hs.
    + destruct (blocking (Booking.status b)) eqn:Hb.
      * eapply no_blocking_overlap_same; eauto.
      * eapply no_blocking_overlap_insert; [done..|]. simpl. intros _.
        apply blocking_cases in Hs.
        destruct Hcur as [Hcur|[Hcur|[Hcur|[Hcur|Hcur]]]];
          rewrite Hcur in *; try discriminate.
        destruct Hs as [-> | [-> | ->]]; try discriminate.
        intros j o Hj Hne Hcar Ho day.
        eapply hasConflict_false_no_common_day; eauto.
    + eapply no_blocking_overlap_insert; [done..|]. simpl. by rewrite Hs.
  - eapply no_blocking_overlap_subset; [|done]. simpl.
    intros i c Hi. by apply lookup_delete_Some in Hi as [_ ?].
  - eapply no_blocking_overlap_subset; [|done]. simpl.
    intros i bi Hi. by apply map_lookup_filter_Some in Hi as [? _].
  - eapply no_blocking_overlap_subset; [|done]. done.
  - eapply no_blocking_overlap_subset; [|done]. done.
Qed.

(** Without an edit of a booking that has left Pending, blocking bookings
    of one car never share a day. *)
Lemma no_blocking_overlap_editing_pending_only d :
  reachable_editing_pending_only d → reachable d ∧ no_blocking_overlap d.
Proof.
  induction 1 as [|ctx req d Hd [IHr IHn] Hedit].
  - split; [constructor|]. intros i j a b H. simpl in H.
    by rewrite lookup_empty in H.
  - split; [by constructor|].
    destruct (handle_effect ctx req d) as [-> | Heff]; [done|].
    eapply effect_no_blocking_overlap; eauto using reachable_valid_statuses.
Qed.

Lemma reachable_editing_pending_only_run trace d :
  Forall (λ step : context * request, ∀ id post, step.2 ≠ EditBooking id post) trace →
  reachable_editing_pending_only d →
  reachable_editing_pending_only (run trace d).
Proof.
  intros Htrace. revert d.
  induction Htrace as [|[ctx req] trace Hreq _ IH]; intros d Hd; [done|].
  apply IH. constructor; [done|]. intros id post b Heq. by destruct (Hreq id post).
Qed.

(** C1. Editing the dates of an Approved booking is not checked against
    the other bookings of the car.  Six requests reach a state where the
    Approved bookings 1 (2024-02-01 to 2024-02-10) and 2 (2024-02-05 to
    2024-02-15) of car 1 share the day 2024-02-05.  Before the edit the
    invariant holds, and both the submission of a booking and the approval
    of a Pending one refuse the dates that the edit accepts. *)
Theorem edit_booking_breaks_no_blocking_overlap :
  reachable db_overlap
  ∧ bookings db_overlap !! 1
    = Some (Booking.mk 7 1 d_2024_02_01 d_2024_02_10 None "Approved" None "Unpaid")
  ∧ bookings db_overlap !! 2
    = Some (Booking.mk 8 1 d_2024_02_05 d_2024_02_15 None "Approved" None "Unpaid")
  ∧ ¬ no_blocking_overlap db_overlap
  ∧ no_blocking_overlap db_before_edit
  ∧ db_overlap = (handle bob (edit_dates 2 d_2024_02_05 d_2024_02_15) db_before_edit).2
  ∧ hasConflict db_before_edit 1 d_2024_02_05 d_2024_02_15 None = true
  ∧ hasConflict db_before_edit 1 d_2024_02_05 d_2024_02_15 (Some 2) = true.
Proof.
  assert (H1 : bookings db_overlap !! 1
    = Some (Booking.mk 7 1 d_2024_02_01 d_2024_02_10 None "Approved" None "Unpaid"))
    by (vm_compute; reflexivity).
  assert (H2 : bookings db_overlap !! 2
    = Some (Booking.mk 8 1 d_2024_02_05 d_2024_02_15 None "Approved" None "Unpaid"))
    by (vm_compute; reflexivity).
  split; [apply reachable_run, reachable_empty|].
  do 2 (split; [done|]). split; [|split; [|repeat split; vm_compute; reflexivity]].
  - intros Hinv.
    apply (Hinv 1 2 _ _ H1 H2 ltac:(lia) eq_refl eq_refl eq_refl d_2024_02_05).
    unfold common_day. simpl. unfold d_2024_02_01, d_2024_02_05, d_2024_02_10,
      d_2024_02_15. lia.
  - apply no_blocking_overlap_editing_pending_only.
    apply reachable_editing_pending_only_run; [|constructor].
    repeat constructor; done.
Qed.

(** ** The admin status update *)

Lemma elem_of_conflict_details conflicting id p r :
  (id, p, r) ∈ conflict_details conflicting ↔
  ∃ o, (id, o) ∈ conflicting ∧ p = Booking.pickup_date o ∧ r = Booking.return_date o.
Proof.
  unfold conflict_details. rewrite list_elem_of_fmap. split.
  - intros ([i o] & [= -> -> ->] & Hin). by exists o.
  - intros (o & Hin & -> & ->). by exists (id, o).
Qed.

Lemma new_status_cases (s : string) :
  s = "Pending"%string ∨ s = "Approved"%string ∨ s = "Rejected"%string
  ∨ s = "Completed"%string ∨ s = "Returned"%string
  ∨ is_valid_status (Some s) = false.
Proof.
  destruct (is_valid_status (Some s)) eqn:E; [|tauto].
  apply valid_status_cases in E. tauto.
Qed.

Lemma admin_transitions_valid (current s : string) :
  (current, s) ∈ admin_transitions → is_valid_status (Some s) = true.
Proof.
  unfold admin_transitions. rewrite !elem_of_cons, elem_of_nil.
  intros H. repeat destruct H as [[= -> ->] | H]; done.
Qed.

Lemma admin_update_booking_status_accepts ctx d booking_id booking new_status :
  is_admin_user ctx = true →
  commit_ok ctx = true →
  bookings d !! booking_id = Some booking →
  is_valid_status (Some (Booking.status booking)) = true →
  (admin_update_booking_status ctx booking_id new_status d).1 = status_updated ↔
  ∃ s, new_status = Some s
       ∧ (Booking.status booking, s) ∈ admin_transitions
       ∧ (Booking.status booking = "Pending"%string → s = "Approved"%string →
          hasConflict d (Booking.car_id booking) (Booking.pickup_date booking)
            (Booking.return_date booking) (Some booking_id) = false)
       ∧ (s = "Pending"%string → has_payment booking = false).
Proof.
  intros Hadmin Hok Hb Hvalid. unfold admin_update_booking_status, commit.
  rewrite Hadmin, Hok, Hb. simpl negb. cbv iota.
  generalize (conflict_details
    (conflicting_bookings d (Booking.car_id booking) (Some booking_id)
       (Booking.pickup_date booking) (Booking.return_date booking))).
  generalize (hasConflict d (Booking.car_id booking) (Booking.pickup_date booking)
            (Booking.return_date booking) (Some booking_id)).
  generalize (has_payment booking).
  apply valid_status_cases in Hvalid.
  intros pay conflict details.
  destruct new_status as [s|].
  2:{ split; [|by intros (s & [=] & _)].
      destruct Hvalid as [-> | [-> | [-> | [-> | ->]]]]; by vm_compute. }
  assert (Hrhs : ∀ P : string → Prop, (∃ s0, Some s = Some s0 ∧ P s0) ↔ P s).
  { intros P. split; [by intros (s0 & [= <-] & ?)|]. intros ?. by exists s. }
  rewrite Hrhs. clear Hrhs.
  destruct (new_status_cases s) as [-> | [-> | [-> | [-> | [-> | Hinv]]]]].
  6:{ split.
      - destruct (_ && _ && conflict); [done|].
        destruct (_ && pay); [done|].
        destruct (transition_error _ _); [done|]. by rewrite Hinv.
      - intros [Hin _]. apply admin_transitions_valid in Hin. congruence. }
  all: destruct Hvalid as [-> | [-> | [-> | [-> | ->]]]];
    destruct pay, conflict;
    (split;
     [ intros H; vm_compute in H; try discriminate H;
       refine (bool_decide_unpack _ _); vm_compute; exact I
     | intros H; pose proof (bool_decide_pack _ H) as H'; vm_compute in H';
       try (exfalso; exact H'); vm_compute; reflexivity ]).
Qed.

Lemma admin_update_booking_status_result ctx d booking_id new_status :
  let result := admin_update_booking_status ctx booking_id new_status d in
  (result.1 = status_updated →
   ∃ s booking, new_status = Some s ∧ bookings d !! booking_id = Some booking
     ∧ result.2 = update_booking booking_id (Booking.set_status s booking) d)
  ∧ (result.1 ≠ status_updated → result.2 = d).
Proof.
  unfold admin_update_booking_status, commit. simpl.
  destruct (negb _); [by split|].
  destruct (bookings d !! booking_id) as [b|]; [|by split].
  destruct (_ && _ && hasConflict _ _ _ _ _); [by split|].
  destruct (_ && has_payment b); [by split|].
  destruct (transition_error _ _) as [e|] eqn:Ht.
  { by split. }
  destruct new_status as [s|]; [|by split].
  destruct (is_valid_status (Some s)); [|by split].
  destruct (commit_ok ctx); [|by split].
  split; [|done]. intros _. by exists s, b.
Qed.

(** C4, as the handler has it.  For an admin, on a booking with one of the
    five statuses, the update is accepted exactly for the pairs of
    [admin_transitions]: Pending to Approved when no blocking booking of
    the car overlaps, Pending to Rejected, Approved to Returned, Returned
    to Completed, and the current status again from Pending (when no
    payment method is recorded), Approved or Returned.  An accepted request
    sets the status and nothing else; any other request leaves the database
    as it was, so nothing leaves Rejected or Completed.  A request for
    Pending with a payment method recorded is refused with its own
    message, and an approval refused for overlap reports exactly the
    conflicting bookings, each with its identifier and dates. *)
Theorem admin_update_booking_status_table ctx d booking_id booking new_status :
  is_admin_user ctx = true →
  commit_ok ctx = true →
  bookings d !! booking_id = Some booking →
  is_valid_status (Some (Booking.status booking)) = true →
  let result := admin_update_booking_status ctx booking_id new_status d in
  let conflict :=
    hasConflict d (Booking.car_id booking) (Booking.pickup_date booking)
      (Booking.return_date booking) (Some booking_id) in
  (result.1 = status_updated ↔
   ∃ s, new_status = Some s
        ∧ (Booking.status booking, s) ∈ admin_transitions
        ∧ (Booking.status booking = "Pending"%string → s = "Approved"%string →
           conflict = false)
        ∧ (s = "Pending"%string → has_payment booking = false))
  ∧ (result.1 = status_updated →
     ∃ s, new_status = Some s
          ∧ result.2 = update_booking booking_id (Booking.set_status s booking) d)
  ∧ (result.1 ≠ status_updated → result.2 = d)
  ∧ (Booking.status booking = "Rejected"%string
     ∨ Booking.status booking = "Completed"%string →
     result.1 ≠ status_updated ∧ result.2 = d)
  ∧ (new_status = Some "Pending"%string → has_payment booking = true →
     result = (Flash "warning" "Cannot change status to Pending because a payment method has been selected.", d))
  ∧ (new_status = Some "Approved"%string →
     Booking.status booking = "Pending"%string → conflict = true →
     ∃ details,
       result = (FlashOverlap details, d)
       ∧ details ≠ []
       ∧ ∀ id p r, (id, p, r) ∈ details ↔
           ∃ o, bookings d !! id = Some o
                ∧ id ≠ booking_id
                ∧ Booking.car_id o = Booking.car_id booking
                ∧ Booking.status o ∈ ["Approved"; "Returned"; "Completed"]%string
                ∧ Booking.return_date o >= Booking.pickup_date booking
                ∧ Booking.pickup_date o <= Booking.return_date booking
                ∧ p = Booking.pickup_date o ∧ r = Booking.return_date o).
Proof.
  intros Hadmin Hok Hb Hvalid result conflict.
  pose proof (admin_update_booking_status_accepts ctx d booking_id booking
                new_status Hadmin Hok Hb Hvalid) as Hacc.
  pose proof (admin_update_booking_status_result ctx d booking_id new_status)
    as [Hyes Hno].
  fold result in Hacc, Hyes, Hno.
  split; [exact Hacc|]. split; [|split; [exact Hno|split; [|split]]].
  - intros H. destruct (Hyes H) as (s & b & -> & Hb' & ->).
    exists s. split; [done|]. congruence.
  - intros Hterm.
    assert (Hn : result.1 ≠ status_updated).
    { intros H. apply Hacc in H as (s & _ & Hin & _).
      unfold admin_transitions in Hin. rewrite !elem_of_cons, elem_of_nil in Hin.
      destruct Hterm as [Ht | Ht]; rewrite Ht in Hin;
        repeat destruct Hin as [[=] | Hin]; done. }
    split; [done|]. by apply Hno.
  - intros -> Hpay. unfold result, admin_update_booking_status.
    rewrite Hadmin, Hb, Hpay. simpl. done.
  - intros -> Hp Hc. unfold result, admin_update_booking_status.
    rewrite Hadmin, Hb, Hp. fold conflict. rewrite Hc. simpl.
    eexists. split; [done|]. split.
    + unfold conflict, hasConflict in Hc. unfold conflict_details.
      by destruct (conflicting_bookings _ _ _ _ _).
    + intros id p r. rewrite elem_of_conflict_details. split.
      * intros (o & Hin & -> & ->). exists o.
        apply elem_of_conflicting_bookings in Hin as (? & ? & ? & ? & ? & ?).
        rewrite <- blocking_spec. repeat split; try done. congruence.
      * intros (o & H1 & H2 & H3 & H4 & H5 & H6 & -> & ->). exists o.
        split; [|done]. apply elem_of_conflicting_bookings.
        rewrite blocking_spec. repeat split; try done. congruence.
Qed.

Lemma admin_update_booking_status_table_witness :
  is_admin_user admin = true
  ∧ commit_ok admin = true
  ∧ bookings db_returned !! 1
    = Some (Booking.mk 7 1 d_2024_02_01 d_2024_02_10 None "Returned" None "Unpaid")
  ∧ (admin_update_booking_status admin 1 (Some "Rejected"%string) db_returned).2
    = db_returned.
Proof.
  assert (H : bookings db_returned !! 1
    = Some (Booking.mk 7 1 d_2024_02_01 d_2024_02_10 None "Returned" None "Unpaid"))
    by (vm_compute; reflexivity).
  split; [reflexivity|]. split; [reflexivity|]. split; [exact H|].
  destruct (admin_update_booking_status_table admin db_returned 1 _
              (Some "Rejected"%string) eq_refl eq_refl H eq_refl)
    as (Hacc & _ & Hno & _).
  apply Hno. intros Hyes. apply Hacc in Hyes as (s & [= <-] & Hin & _).
  unfold admin_transitions in Hin. simpl in Hin.
  rewrite !elem_of_cons, elem_of_nil in Hin.
  repeat destruct Hin as [[=] | Hin]; done.
Defined.

(** The admin handler accepts Returned to Completed, which the table of
    the specification gives to the review alone. *)
Lemma admin_update_accepts_returned_to_completed :
  bookings db_returned !! 1
  = Some (Booking.mk 7 1 d_2024_02_01 d_2024_02_10 None "Returned" None "Unpaid")
  ∧ admin_update_booking_status admin 1 (Some "Completed"%string) db_returned
    = (status_updated,
       update_booking 1
         (Booking.mk 7 1 d_2024_02_01 d_2024_02_10 None "Completed" None "Unpaid")
         db_returned)
  ∧ ("Returned"%string, "Completed"%string) ∉ spec_admin_transitions.
Proof.
  split; [by vm_compute|]. split; [by vm_compute|].
  unfold spec_admin_transitions. rewrite !elem_of_cons, elem_of_nil.
  intros H. repeat destruct H as [[=] | H]; done.
Qed.

(** ** From Returned to Completed *)

(** The admin handler completes a Returned booking and no review exists. *)
Lemma admin_completes_without_review :
  reachable db_returned
  ∧ Booking.status <$> bookings db_returned !! 1 = Some "Returned"%string
  ∧ Booking.status
      <$> bookings (handle admin (set_status_to 1 "Completed") db_returned).2 !! 1
    = Some "Completed"%string
  ∧ reviews (handle admin (set_status_to 1 "Completed") db_returned).2 = ∅.
Proof.
  split; [apply reachable_run, reachable_empty|].
  repeat split; vm_compute; reflexivity.
Qed.

(** C5, as the handlers have it.  Whatever the request, a booking goes
    from Returned to Completed in one of two ways only: by the review of
    its owner, and then the review row is in the table after the same
    commit, under a fresh identifier and as the first review of the
    booking; or by the status update of an admin, which touches no review.
    No other handler completes a booking. *)
Theorem returned_to_completed ctx req d booking_id booking booking' :
  bookings d !! booking_id = Some booking →
  Booking.status booking = "Returned"%string →
  bookings (handle ctx req d).2 !! booking_id = Some booking' →
  Booking.status booking' = "Completed"%string →
  (∃ form,
     req = SubmitReview booking_id form
     ∧ Booking.user_id booking = User.id (current_user ctx)
     ∧ existing_review d booking_id = None
     ∧ reviews d !! next_id (reviews d) = None
     ∧ ∃ review_obj,
         Review.booking_id review_obj = booking_id
         ∧ reviews (handle ctx req d).2
           = <[next_id (reviews d) := review_obj]> (reviews d))
  ∨ (req = AdminUpdateBookingStatus booking_id (Some "Completed"%string)
     ∧ is_admin_user ctx = true
     ∧ reviews (handle ctx req d).2 = reviews d).
Proof.
  intros Hb Hst Hb' Hst'.
  destruct (handle_effect ctx req d) as [Heq | Heff].
  { rewrite Heq in Hb'. congruence. }
  destruct Heff; simpl in Hb'.
  - apply lookup_insert_Some in Hb' as [[<- <-]|[_ Hb']]; [|congruence].
    by rewrite next_id_fresh in Hb.
  - apply lookup_insert_Some in Hb' as [[<- <-]|[_ Hb']]; simpl in *; congruence.
  - apply lookup_insert_Some in Hb' as [[<- <-]|[_ Hb']]; simpl in *; congruence.
  - apply lookup_insert_Some in Hb' as [[<- <-]|[_ Hb']]; simpl in *; congruence.
  - apply lookup_delete_Some in Hb' as [_ Hb']. congruence.
  - apply lookup_insert_Some in Hb' as [[<- <-]|[_ Hb']]; [|congruence].
    left. exists form. simplify_eq. repeat split; try done.
    + apply next_id_fresh.
    + eexists. split; [|simpl; reflexivity]. done.
  - apply lookup_insert_Some in Hb' as [[<- <-]|[_ Hb']]; [|congruence].
    right. simpl in Hst'. subst s. done.
  - apply lookup_delete_Some in Hb' as [_ Hb']. congruence.
  - apply map_lookup_filter_Some in Hb' as [Hb' _]. congruence.
  - congruence.
  - congruence.
Qed.

Lemma returned_to_completed_witness :
  bookings db_returned !! 1
  = Some (Booking.mk 7 1 d_2024_02_01 d_2024_02_10 None "Returned" None "Unpaid")
  ∧ ∃ review_obj,
      reviews (handle alice (SubmitReview 1 (ReviewForm.mk true "5" "")) db_returned).2
      = <[1 := review_obj]> ∅.
Proof.
  assert (H : bookings db_returned !! 1
    = Some (Booking.mk 7 1 d_2024_02_01 d_2024_02_10 None "Returned" None "Unpaid"))
    by (vm_compute; reflexivity).
  split; [exact H|].
  destruct (returned_to_completed alice (SubmitReview 1 (ReviewForm.mk true "5" ""))
              db_returned 1 _
              (Booking.mk 7 1 d_2024_02_01 d_2024_02_10 None "Completed" None "Unpaid")
              H eq_refl)
    as [(form & _ & _ & _ & _ & r & _ & Hr) | ([=] & _)].
  - vm_compute. reflexivity.
  - reflexivity.
  - exists r. exact Hr.
Defined.

(** ** Review submission *)

(** C6. A logged-in user who submits a valid review form succeeds exactly
    when the booking is theirs, its status is Returned and it has no
    review yet.  On success one review row is added, under a fresh
    identifier, and the status becomes Completed, both by the one commit;
    the new row is then the only review of the booking.  In every other
    case, and when the commit fails, the database is left as it was.  A
    further submission for the booking, by anyone and with any form, is
    refused and changes nothing.  In every reachable state a booking has
    at most one review. *)
Theorem review_submission ctx d booking_id form :
  User.is_authenticated (current_user ctx) = true →
  ReviewForm.validate_on_submit form = true →
  let result := review ctx booking_id form d in
  (commit_ok ctx = true →
   (result.1 = review_thanks ↔
    ∃ booking,
      bookings d !! booking_id = Some booking
      ∧ Booking.user_id booking = User.id (current_user ctx)
      ∧ Booking.status booking = "Returned"%string
      ∧ ∀ rid r, reviews d !! rid = Some r → Review.booking_id r ≠ booking_id))
  ∧ (result.1 = review_thanks →
     ∃ booking review_obj,
       bookings d !! booking_id = Some booking
       ∧ Review.booking_id review_obj = booking_id
       ∧ reviews d !! next_id (reviews d) = None
       ∧ result.2
         = mkdb (cars d)
             (<[booking_id := Booking.set_status "Completed" booking]> (bookings d))
             (<[next_id (reviews d) := review_obj]> (reviews d))
       ∧ ∀ rid r, reviews result.2 !! rid = Some r →
                  Review.booking_id r = booking_id → rid = next_id (reviews d))
  ∧ (result.1 ≠ review_thanks → result.2 = d)
  ∧ (commit_ok ctx = false → result.2 = d)
  ∧ (result.1 = review_thanks →
     ∀ ctx' form',
       (review ctx' booking_id form' result.2).1 ≠ review_thanks
       ∧ (review ctx' booking_id form' result.2).2 = result.2)
  ∧ (reachable d → unique_reviews d ∧ unique_reviews result.2).
Proof.
  intros Hauth Hform result.
  assert (Hshape : result.1 = review_thanks →
     ∃ booking,
       bookings d !! booking_id = Some booking
       ∧ Booking.user_id booking = User.id (current_user ctx)
       ∧ Booking.status booking = "Returned"%string
       ∧ existing_review d booking_id = None
       ∧ result.2
         = mkdb (cars d)
             (<[booking_id := Booking.set_status "Completed" booking]> (bookings d))
             (<[next_id (reviews d) :=
                  Review.mk (User.id (current_user ctx)) (Booking.car_id booking)
                    booking_id (ReviewForm.rating form)
                    (if bool_decide (ReviewForm.comment form = ""%string) then None
                     else Some (ReviewForm.comment form))]> (reviews d))).
  { unfold result, review, commit. rewrite Hauth, Hform. simpl.
    destruct (bookings d !! booking_id) as [b|]; [|done].
    case_bool_decide as Hu; [done|].
    case_bool_decide as Hs; [done|].
    destruct (existing_review d booking_id) eqn:He; [done|].
    destruct (commit_ok ctx); [|done]. intros _. by exists b. }
  split; [|split; [|split; [|split; [|split]]]].
  - intros Hok. split.
    + intros H. destruct (Hshape H) as (b & Hb & Hu & Hs & He & _).
      exists b. by rewrite <- existing_review_None.
    + intros (b & Hb & Hu & Hs & He). apply existing_review_None in He.
      unfold result, review, commit. rewrite Hauth, Hform, Hb, He, Hok. simpl.
      rewrite bool_decide_eq_false_2 by (by intros ?).
      rewrite bool_decide_eq_false_2 by (by intros ?). done.
  - intros H. destruct (Hshape H) as (b & Hb & Hu & Hs & He & Hres).
    eexists b, _. split; [done|]. split; [|split; [apply next_id_fresh|split; [exact Hres|]]].
    + done.
    + intros rid r. rewrite Hres. simpl. intros Hr Hid.
      apply lookup_insert_Some in Hr as [[<- _]|[_ Hr]]; [done|].
      rewrite existing_review_None in He. by apply He in Hr.
  - clear Hshape. unfold result, review, commit. rewrite Hauth, Hform. simpl.
    destruct (bookings d !! booking_id) as [b|]; [|done].
    destruct (bool_decide (Booking.user_id b ≠ _)); [done|].
    destruct (bool_decide (Booking.status b ≠ _)); [done|].
    destruct (existing_review d booking_id); [done|].
    by destruct (commit_ok ctx).
  - clear Hshape. intros Hfail.
    unfold result, review, commit. rewrite Hauth, Hform, Hfail. simpl.
    destruct (bookings d !! booking_id) as [b|]; [|done].
    destruct (bool_decide (Booking.user_id b ≠ _)); [done|].
    destruct (bool_decide (Booking.status b ≠ _)); [done|].
    by destruct (existing_review d booking_id).
  - intros H ctx' form'. destruct (Hshape H) as (b & Hb & Hu & Hs & He & Hres).
    rewrite Hres. unfold review. simpl. rewrite lookup_insert_eq. simpl.
    destruct (negb _); [done|].
    by destruct (bool_decide (_ ≠ User.id _)).
  - intros Hd. split; [by apply reachable_unique_reviews|].
    apply reachable_unique_reviews.
    change result with (handle ctx (SubmitReview booking_id form) d). by constructor.
Qed.

Lemma review_submission_witness :
  User.is_authenticated (current_user alice) = true
  ∧ ReviewForm.validate_on_submit (ReviewForm.mk true "5" "Smooth ride") = true
  ∧ (review alice 1 (ReviewForm.mk true "5" "Smooth ride") db_returned).1
    = review_thanks.
Proof.
  split; [reflexivity|]. split; [reflexivity|].
  destruct (review_submission alice db_returned 1
              (ReviewForm.mk true "5" "Smooth ride") eq_refl eq_refl)
    as (Hiff & _).
  apply (Hiff eq_refl).
  exists (Booking.mk 7 1 d_2024_02_01 d_2024_02_10 None "Returned" None "Unpaid").
  split; [vm_compute; reflexivity|]. split; [reflexivity|]. split; [reflexivity|].
  intros rid r Hr. vm_compute in Hr. discriminate Hr.
Defined.

(** ** Payment *)

(** What the two payment handlers do for the owner of an Approved
    booking when the commit succeeds. *)
Lemma confirmation_payment_selects ctx d booking_id booking m :
  User.is_authenticated (current_user ctx) = true →
  commit_ok ctx = true →
  bookings d !! booking_id = Some booking →
  Booking.user_id booking = User.id (current_user ctx) →
  Booking.status booking = "Approved"%string →
  m ≠ ""%string →
  confirmation_payment ctx booking_id (Some m) d
  = (Flash "success" "Payment method selected successfully!",
     update_booking booking_id
       (Booking.set_payment (Some m)
          (if bool_decide (m = "Cash"%string) then "Unpaid"%string
           else Booking.payment_status booking) booking) d).
Proof.
  intros Hauth Hcommit Hb Howner Hstatus Hm.
  unfold confirmation_payment, commit, truthy.
  rewrite Hauth, Hb, Hcommit. simpl.
  rewrite (bool_decide_eq_false_2 (Booking.user_id booking ≠ _)) by (by intros []).
  rewrite (bool_decide_eq_false_2 (Booking.status booking ≠ _)) by (by intros []).
  rewrite (bool_decide_eq_false_2 (m = ""%string)) by done. simpl.
  by rewrite (bool_decide_ext (Some m = Some "Cash"%string) (m = "Cash"%string))
    by (split; congruence).
Qed.

Lemma process_payment_pays ctx d booking_id booking pm :
  User.is_authenticated (current_user ctx) = true →
  commit_ok ctx = true →
  bookings d !! booking_id = Some booking →
  Booking.user_id booking = User.id (current_user ctx) →
  Booking.status booking = "Approved"%string →
  process_payment ctx booking_id (Some pm) d
  = (Json true 200,
     update_booking booking_id (Booking.set_payment pm "Paid" booking) d).
Proof.
  intros Hauth Hcommit Hb Howner Hstatus.
  unfold process_payment, commit.
  rewrite Hauth, Hb, Hcommit. simpl.
  rewrite (bool_decide_eq_false_2 (Booking.user_id booking ≠ _)) by (by intros []).
  by rewrite (bool_decide_eq_false_2 (Booking.status booking ≠ _)) by (by intros []).
Qed.

(** C7. The payment handlers store the method that the client sends and
    never compare it with Cash, GCash and Card, the three methods that the
    comments of the model and of the handlers name.  Four requests reach
    an Approved booking whose method is Bitcoin, with the success message
    of the selection; every text that is not empty is the method of some
    reachable booking in the same way.  The rest holds as the handlers are
    written.  For the owner of an Approved booking, when the commit
    succeeds, the selection of a method records the text sent and sets the
    payment status to Unpaid for Cash and keeps it as it was for any other
    text; the processing of a payment records what is sent, a missing
    value too, and sets the payment status to Paid.  Neither handler
    changes the database in any other case, and in every reachable state
    each booking is Unpaid or Paid. *)
Theorem payment_selection :
  (reachable db_approved
   ∧ bookings db_approved !! 1
     = Some (Booking.mk 7 1 d_2024_02_01 d_2024_02_10 None "Approved" None "Unpaid")
   ∧ confirmation_payment alice 1 (Some "Bitcoin"%string) db_approved
     = (Flash "success" "Payment method selected successfully!", db_bitcoin)
   ∧ reachable db_bitcoin
   ∧ bookings db_bitcoin !! 1
     = Some (Booking.mk 7 1 d_2024_02_01 d_2024_02_10 None "Approved"
               (Some "Bitcoin"%string) "Unpaid")
   ∧ ("Bitcoin"%string ∉ ["Cash"; "GCash"; "Card"]%string)
   ∧ (∀ m : string, m ≠ ""%string →
        ∃ d booking, reachable d ∧ bookings d !! 1 = Some booking
                     ∧ Booking.payment_method booking = Some m))
  ∧ (∀ ctx d booking_id booking,
       User.is_authenticated (current_user ctx) = true →
       commit_ok ctx = true →
       bookings d !! booking_id = Some booking →
       Booking.user_id booking = User.id (current_user ctx) →
       Booking.status booking = "Approved"%string →
       (∀ m, m ≠ ""%string →
          confirmation_payment ctx booking_id (Some m) d
          = (Flash "success" "Payment method selected successfully!",
             update_booking booking_id
               (Booking.set_payment (Some m)
                  (if bool_decide (m = "Cash"%string) then "Unpaid"%string
                   else Booking.payment_status booking) booking) d))
       ∧ (∀ pm, process_payment ctx booking_id (Some pm) d
                = (Json true 200,
                   update_booking booking_id
                     (Booking.set_payment pm "Paid" booking) d)))
  ∧ (∀ ctx d booking_id payment_method,
       (confirmation_payment ctx booking_id payment_method d).2 ≠ d →
       ∃ booking m,
         bookings d !! booking_id = Some booking
         ∧ Booking.status booking = "Approved"%string
         ∧ Booking.user_id booking = User.id (current_user ctx)
         ∧ User.is_authenticated (current_user ctx) = true
         ∧ payment_method = Some m ∧ m ≠ ""%string)
  ∧ (∀ ctx d booking_id json,
       (process_payment ctx booking_id json d).2 ≠ d →
       ∃ booking pm,
         bookings d !! booking_id = Some booking
         ∧ Booking.status booking = "Approved"%string
         ∧ Booking.user_id booking = User.id (current_user ctx)
         ∧ User.is_authenticated (current_user ctx) = true
         ∧ json = Some pm)
  ∧ (∀ d, reachable d → valid_payment_statuses d).
Proof.
  assert (Ha : reachable db_approved) by apply reachable_run, reachable_empty.
  assert (Hb : bookings db_approved !! 1
    = Some (Booking.mk 7 1 d_2024_02_01 d_2024_02_10 None "Approved" None "Unpaid"))
    by (vm_compute; reflexivity).
  split; [|split; [|split; [|split]]].
  - split; [exact Ha|]. split; [exact Hb|].
    split; [vm_compute; reflexivity|].
    split; [apply reachable_run, reachable_empty|].
    split; [vm_compute; reflexivity|]. split.
    + rewrite !elem_of_cons, elem_of_nil. intros H.
      repeat destruct H as [[=] | H]; done.
    + intros m Hm.
      exists (handle alice (ConfirmationPayment 1 (Some m)) db_approved).2.
      eexists. split; [by constructor|]. simpl.
      rewrite (confirmation_payment_selects alice db_approved 1 _ m
                 eq_refl eq_refl Hb eq_refl eq_refl Hm).
      split; [apply lookup_insert_eq|]. reflexivity.
  - intros ctx d booking_id booking Hauth Hcommit Hl Howner Hstatus. split.
    + intros m Hm. by apply confirmation_payment_selects.
    + intros pm. by apply process_payment_pays.
  - intros ctx d booking_id payment_method. unfold confirmation_payment.
    destruct (User.is_authenticated (current_user ctx)) eqn:Hauth; [|done]. simpl.
    destruct (bookings d !! booking_id) as [booking|] eqn:Hl; [|done].
    destruct (bool_decide (Booking.user_id booking ≠ _)) eqn:Hu; [done|].
    destruct (bool_decide (Booking.status booking ≠ _)) eqn:Hs; [done|].
    destruct payment_method as [m|]; [|done]. simpl.
    destruct (bool_decide (m = ""%string)) eqn:Hm; [done|].
    intros _. by_check. by exists booking, m.
  - intros ctx d booking_id json. unfold process_payment.
    destruct (User.is_authenticated (current_user ctx)) eqn:Hauth; [|done]. simpl.
    destruct (bookings d !! booking_id) as [booking|] eqn:Hl; [|done].
    destruct (bool_decide (Booking.user_id booking ≠ _)) eqn:Hu; [done|].
    destruct (bool_decide (Booking.status booking ≠ _)) eqn:Hs; [done|].
    destruct json as [pm|]; [|done].
    intros _. by_check. by exists booking, pm.
  - apply reachable_valid_payment_statuses.
Qed.

(** A payment on record is set back to Unpaid when Cash is selected
    afterwards. *)
Lemma payment_selection_witness :
  bookings db_bitcoin !! 1
  = Some (Booking.mk 7 1 d_2024_02_01 d_2024_02_10 None "Approved"
            (Some "Bitcoin"%string) "Unpaid")
  ∧ (let paid := (process_payment alice 1 (Some (Some "GCash"%string)) db_bitcoin).2 in
     bookings paid !! 1
     = Some (Booking.mk 7 1 d_2024_02_01 d_2024_02_10 None "Approved"
               (Some "GCash"%string) "Paid")
     ∧ bookings (confirmation_payment alice 1 (Some "Cash"%string) paid).2 !! 1
       = Some (Booking.mk 7 1 d_2024_02_01 d_2024_02_10 None "Approved"
                 (Some "Cash"%string) "Unpaid")).
Proof.
  destruct payment_selection as ((_ & _ & _ & _ & Hb & _) & Hdoes & _).
  split; [exact Hb|].
  destruct (Hdoes alice db_bitcoin 1 _ eq_refl eq_refl Hb eq_refl eq_refl)
    as (_ & Hpay).
  cbv zeta. rewrite (Hpay (Some "GCash"%string)). simpl.
  assert (Hp : bookings
                 (update_booking 1
                    (Booking.set_payment (Some "GCash"%string) "Paid"
                       (Booking.mk 7 1 d_2024_02_01 d_2024_02_10 None "Approved"
                          (Some "Bitcoin"%string) "Unpaid")) db_bitcoin) !! 1
               = Some (Booking.mk 7 1 d_2024_02_01 d_2024_02_10 None "Approved"
                         (Some "GCash"%string) "Paid"))
    by apply lookup_insert_eq.
  split; [exact Hp|].
  destruct (Hdoes alice _ 1 _ eq_refl eq_refl Hp eq_refl eq_refl) as (Hsel & _).
  rewrite (Hsel "Cash"%string) by discriminate.
  apply lookup_insert_eq.
Defined.

(** * Further properties of the handlers *)

(** ** Who may change what *)

(** X1. A request from a client that is not logged in changes nothing,
    whatever the request. *)
Theorem unauthenticated_request_changes_nothing ctx req d :
  User.is_authenticated (current_user ctx) = false →
  (handle ctx req d).2 = d.
Proof.
  intros H.
  assert (Ha : is_admin_user ctx = false) by (unfold is_admin_user; by rewrite H).
  destruct req; simpl;
    unfold book, confirmation, confirmation_payment, process_payment, edit_booking,
      delete_booking, review, admin_update_booking_status, admin_delete_booking,
      admin_delete_car, admin_add_car, admin_edit_car;
    rewrite ?H, ?Ha; reflexivity.
Qed.

Lemma unauthenticated_request_changes_nothing_witness :
  (handle (mkctx (User.mk 8 false false) true)
     (edit_dates 2 d_2024_02_05 d_2024_02_15) db_before_edit).2
  = db_before_edit.
Proof.
  apply (unauthenticated_request_changes_nothing
           (mkctx (User.mk 8 false false) true)). reflexivity.
Defined.

(** X2. The requests behind [admin_required] are refused for every user
    who is not an admin, with the message of the decorator, and change
    nothing. *)
Theorem admin_request_needs_admin ctx req d :
  is_admin_request req = true →
  is_admin_user ctx = false →
  handle ctx req d = (admin_denied, d).
Proof.
  intros Hreq Ha. destruct req; try discriminate Hreq; simpl;
    unfold admin_update_booking_status, admin_delete_booking, admin_delete_car,
      admin_add_car, admin_edit_car; by rewrite Ha.
Qed.

Lemma admin_request_needs_admin_witness :
  handle alice (set_status_to 1 "Approved") db_returned = (admin_denied, db_returned).
Proof.
  apply (admin_request_needs_admin alice (set_status_to 1 "Approved") db_returned);
    reflexivity.
Defined.

(** X3. Paying for, editing, deleting and reviewing a booking are for
    its owner alone: when the booking belongs to another user the request
    changes nothing, also when the requesting user is an admin. *)
Theorem only_the_owner_changes_a_booking ctx req d booking_id booking :
  owner_checked_booking req = Some booking_id →
  bookings d !! booking_id = Some booking →
  Booking.user_id booking ≠ User.id (current_user ctx) →
  (handle ctx req d).2 = d.
Proof.
  intros Hreq Hb Hne.
  destruct req; try discriminate Hreq; simpl in Hreq; injection Hreq as ->; simpl;
    unfold confirmation_payment, process_payment, edit_booking, delete_booking, review;
    (destruct (negb _); [reflexivity|]); rewrite Hb;
    by rewrite bool_decide_eq_true_2.
Qed.

Lemma only_the_owner_changes_a_booking_witness :
  (handle admin (edit_dates 2 d_2024_02_05 d_2024_02_15) db_before_edit).2
  = db_before_edit.
Proof.
  apply (only_the_owner_changes_a_booking admin
           (edit_dates 2 d_2024_02_05 d_2024_02_15) db_before_edit 2
           (Booking.mk 8 1 d_2024_02_11 d_2024_02_15 None "Approved" None "Unpaid")).
  - reflexivity.
  - vm_compute. reflexivity.
  - discriminate.
Defined.

(** ** Deleting *)

(** X4. The owner's delete.  For a logged-in user whose commit goes
    through, the booking is deleted exactly when it exists, belongs to the
    user and is Pending or Approved.  Then it is gone, every other booking
    and every car and review is as before; otherwise nothing changes.  A
    booking that does not exist gives the error message of the handler,
    not a 404. *)
Theorem delete_booking_spec ctx d booking_id :
  User.is_authenticated (current_user ctx) = true →
  commit_ok ctx = true →
  let result := delete_booking ctx booking_id d in
  let deletable :=
    ∃ booking, bookings d !! booking_id = Some booking
      ∧ Booking.user_id booking = User.id (current_user ctx)
      ∧ Booking.status booking ∈ ["Pending"; "Approved"]%string in
  (result.1 = Flash "success" "Booking deleted successfully." ↔ deletable)
  ∧ (deletable →
     bookings result.2 !! booking_id = None
     ∧ (∀ j, j ≠ booking_id → bookings result.2 !! j = bookings d !! j)
     ∧ cars result.2 = cars d ∧ reviews result.2 = reviews d)
  ∧ (¬ deletable → result.2 = d)
  ∧ (bookings d !! booking_id = None → result = (delete_failed, d)).
Proof.
  intros Hauth Hok result deletable.
  unfold result, delete_booking, commit. rewrite Hauth, Hok. simpl.
  destruct (bookings d !! booking_id) as [b|] eqn:Hb.
  2:{ split; [split; [done|by intros (? & [=] & _)]|].
      split; [by intros (? & [=] & _)|done]. }
  destruct (decide (Booking.user_id b = User.id (current_user ctx))) as [Hu|Hu].
  2:{ rewrite bool_decide_eq_true_2 by done.
      assert (¬ deletable) by (intros (? & [= <-] & ? & _); done).
      repeat split; try done. }
  rewrite bool_decide_eq_false_2 by (by intros ?).
  destruct (decide (Booking.status b ∈ ["Pending"; "Approved"]%string)) as [Hs|Hs].
  - rewrite bool_decide_eq_true_2 by done. simpl.
    assert deletable by (by exists b).
    repeat split; try done.
    + apply lookup_delete_eq.
    + intros j Hj. by apply lookup_delete_ne.
  - rewrite bool_decide_eq_false_2 by done. simpl.
    assert (¬ deletable) by (intros (? & [= <-] & _ & ?); done).
    repeat split; try done.
Qed.

Lemma delete_booking_spec_witness :
  bookings (delete_booking bob 2 db_before_edit).2 !! 2 = None.
Proof.
  destruct (delete_booking_spec bob db_before_edit 2 eq_refl eq_refl)
    as (_ & Hdel & _).
  apply Hdel.
  exists (Booking.mk 8 1 d_2024_02_11 d_2024_02_15 None "Approved" None "Unpaid").
  split; [vm_compute; reflexivity|]. split; [reflexivity|].
  apply list_elem_of_further, list_elem_of_here.
Defined.

(** X5. The admin's delete removes the booking whatever its status, and
    with it every review of the booking; the other bookings, the reviews
    of other bookings and the cars stay.  A booking that does not exist
    gives the error message of the handler, not a 404. *)
Theorem admin_delete_booking_spec ctx d booking_id booking :
  is_admin_user ctx = true →
  commit_ok ctx = true →
  bookings d !! booking_id = Some booking →
  let result := admin_delete_booking ctx booking_id d in
  result.1 = Flash "success" "Booking deleted successfully."
  ∧ bookings result.2 !! booking_id = None
  ∧ (∀ j, j ≠ booking_id → bookings result.2 !! j = bookings d !! j)
  ∧ (∀ rid r, reviews result.2 !! rid = Some r ↔
       reviews d !! rid = Some r ∧ Review.booking_id r ≠ booking_id)
  ∧ cars result.2 = cars d
  ∧ ∀ d0 j, bookings d0 !! j = None →
            admin_delete_booking ctx j d0 = (delete_failed, d0).
Proof.
  intros Ha Hok Hb result.
  unfold result, admin_delete_booking, commit. rewrite Ha, Hok, Hb. simpl.
  split; [done|]. split; [apply lookup_delete_eq|].
  split; [intros j Hj; by apply lookup_delete_ne|].
  split; [intros rid r; apply map_lookup_filter_Some|].
  split; [done|].
  intros d0 j Hj. by rewrite Hj.
Qed.

Lemma admin_delete_booking_spec_witness :
  bookings (admin_delete_booking admin 1 db_returned).2 !! 1 = None.
Proof.
  apply (admin_delete_booking_spec admin db_returned 1
           (Booking.mk 7 1 d_2024_02_01 d_2024_02_10 None "Returned" None "Unpaid")
           eq_refl eq_refl).
  vm_compute. reflexivity.
Defined.

(** X6. Deleting a car deletes every booking and every review of the
    car and nothing of another car.  A car that does not exist is a 404
    and nothing changes. *)
Theorem admin_delete_car_spec ctx d car_id car :
  is_admin_user ctx = true →
  commit_ok ctx = true →
  cars d !! car_id = Some car →
  let result := admin_delete_car ctx car_id d in
  cars result.2 !! car_id = None
  ∧ (∀ j, j ≠ car_id → cars result.2 !! j = cars d !! j)
  ∧ (∀ id b, bookings result.2 !! id = Some b ↔
       bookings d !! id = Some b ∧ Booking.car_id b ≠ car_id)
  ∧ (∀ rid r, reviews result.2 !! rid = Some r ↔
       reviews d !! rid = Some r ∧ Review.car_id r ≠ car_id)
  ∧ ∀ d0 j, cars d0 !! j = None → admin_delete_car ctx j d0 = (NotFound, d0).
Proof.
  intros Ha Hok Hc result.
  unfold result, admin_delete_car, commit. rewrite Ha, Hok, Hc. simpl.
  split; [apply lookup_delete_eq|].
  split; [intros j Hj; by apply lookup_delete_ne|].
  split; [intros id b; apply map_lookup_filter_Some|].
  split; [intros rid r; apply map_lookup_filter_Some|].
  intros d0 j Hj. by rewrite Hj.
Qed.

Lemma admin_delete_car_spec_witness :
  bookings (admin_delete_car admin 1 db_returned).2 = ∅.
Proof.
  destruct (admin_delete_car_spec admin db_returned 1 (Car.mk "₱2,000")
              eq_refl eq_refl) as (_ & _ & Hb & _).
  { vm_compute. reflexivity. }
  apply map_empty. intros id.
  destruct (bookings (admin_delete_car admin 1 db_returned).2 !! id) as [b|] eqn:E;
    [|reflexivity].
  apply Hb in E as [E Hcar]. exfalso. apply Hcar.
  destruct (decide (id = 1)) as [->|Hne].
  - vm_compute in E. by injection E as <-.
  - assert (bookings db_returned !! id = None) as Hn; [|congruence].
    replace (bookings db_returned)
      with (<[1 := Booking.mk 7 1 d_2024_02_01 d_2024_02_10 None
                     "Returned" None "Unpaid"]> (∅ : gmap Z Booking.t))
      by (vm_compute; reflexivity).
    by rewrite lookup_insert_ne.
Defined.

(** ** What every request keeps *)

Lemma transition_error_completed ns : transition_error "Completed" ns ≠ None.
Proof. done. Qed.

(** X7. Whatever the request, if before it every review belongs to an
    existing Completed booking with the user and the car of the review,
    then so after it: a reviewed booking can be neither edited, paid,
    deleted by its owner nor moved by an admin, and the deletes of the
    admin take the reviews with the booking. *)
Theorem reviews_stay_with_completed_bookings ctx req d :
  reviews_of_completed d →
  reviews_of_completed (handle ctx req d).2.
Proof.
  intros Hinv. destruct (handle_effect ctx req d) as [-> | Heff]; [done|].
  intros rid r Hr. destruct Heff; simpl in *.
  - destruct (Hinv _ _ Hr) as (b & Hb & ?). exists b. split; [|done].
    rewrite lookup_insert_ne; [done|]. intros Heq.
    pose proof (next_id_fresh (bookings d)). congruence.
  - destruct (Hinv _ _ Hr) as (b' & Hb' & Hst & ?). exists b'. split; [|done].
    rewrite lookup_insert_ne; [done|]. intros ->. congruence.
  - destruct (Hinv _ _ Hr) as (b' & Hb' & Hst & ?). exists b'. split; [|done].
    rewrite lookup_insert_ne; [done|]. intros ->. congruence.
  - destruct (Hinv _ _ Hr) as (b' & Hb' & Hst & ?). exists b'. split; [|done].
    rewrite lookup_insert_ne; [done|]. intros ->.
    match goal with H : Booking.status b ∈ _ |- _ =>
      rewrite !elem_of_cons, elem_of_nil in H end. intuition congruence.
  - destruct (Hinv _ _ Hr) as (b' & Hb' & Hst & ?). exists b'. split; [|done].
    rewrite lookup_delete_ne; [done|]. intros ->.
    match goal with H : Booking.status b ∈ _ |- _ =>
      rewrite !elem_of_cons, elem_of_nil in H end. intuition congruence.
  - apply lookup_insert_Some in Hr as [[_ <-]|[_ Hr]]; simpl.
    + eexists. by rewrite lookup_insert_eq.
    + destruct (Hinv _ _ Hr) as (b' & Hb' & Hst & ?).
      exists b'. split; [|done].
      rewrite lookup_insert_ne; [done|]. intros ->. congruence.
  - destruct (Hinv _ _ Hr) as (b' & Hb' & Hst & ?). exists b'. split; [|done].
    rewrite lookup_insert_ne; [done|]. intros ->. simplify_eq.
    match goal with H : transition_error _ _ = None |- _ =>
      rewrite Hst in H; by apply transition_error_completed in H end.
  - apply map_lookup_filter_Some in Hr as [Hr Hne]. simpl in Hne.
    destruct (Hinv _ _ Hr) as (b' & Hb' & ?). exists b'. split; [|done].
    by rewrite lookup_delete_ne.
  - apply map_lookup_filter_Some in Hr as [Hr Hne]. simpl in Hne.
    destruct (Hinv _ _ Hr) as (b' & Hb' & Hst & Hcar & ?). exists b'.
    split; [|done]. apply map_lookup_filter_Some. split; [done|]. simpl. congruence.
  - by apply (Hinv rid r).
  - by apply (Hinv rid r).
Qed.

Lemma reviews_stay_with_completed_bookings_witness :
  reviews_of_completed
    (handle alice (SubmitReview 1 (ReviewForm.mk true "5" "")) db_returned).2.
Proof.
  apply (reviews_stay_with_completed_bookings alice
           (SubmitReview 1 (ReviewForm.mk true "5" "")) db_returned).
  intros rid r Hr. vm_compute in Hr. discriminate Hr.
Defined.

(** X8. No request can store a status outside Pending, Approved,
    Rejected, Completed and Returned: if every booking has one of the
    five before a request, every booking has one after it. *)
Theorem statuses_stay_valid ctx req d :
  valid_statuses d → valid_statuses (handle ctx req d).2.
Proof.
  intros Hinv. destruct (handle_effect ctx req d) as [-> | Heff]; [done|].
  by eapply effect_valid_statuses.
Qed.

Lemma statuses_stay_valid_witness :
  valid_statuses (handle admin (AdminUpdateBookingStatus 1 (Some "Lost"%string))
                    db_returned).2.
Proof.
  apply (statuses_stay_valid admin (AdminUpdateBookingStatus 1 (Some "Lost"%string))
           db_returned).
  apply reachable_valid_statuses, reachable_run, reachable_empty.
Defined.

(** X9. Every request other than the edit of a booking that has left
    Pending keeps the blocking bookings of each car apart: if no two of
    them share a day before the request, none do after it. *)
Theorem requests_keep_blocking_bookings_apart ctx req d :
  valid_statuses d →
  no_blocking_overlap d →
  edits_pending_only d req →
  no_blocking_overlap (handle ctx req d).2.
Proof.
  intros Hvalid Hinv Hedit.
  destruct (handle_effect ctx req d) as [-> | Heff]; [done|].
  by eapply effect_no_blocking_overlap.
Qed.

Lemma requests_keep_blocking_bookings_apart_witness :
  no_blocking_overlap
    (handle admin (set_status_to 1 "Approved")
       (run (take 2 trace_overlap) empty_db)).2.
Proof.
  assert (H : reachable_editing_pending_only (run (take 2 trace_overlap) empty_db)).
  { apply reachable_editing_pending_only_run; [|constructor].
    repeat constructor; done. }
  apply no_blocking_overlap_editing_pending_only in H as [Hr Hn].
  apply (requests_keep_blocking_bookings_apart admin (set_status_to 1 "Approved")).
  - by apply reachable_valid_statuses.
  - exact Hn.
  - intros id post b [=].
Defined.

Lemma transition_error_steps (current s : string) :
  is_valid_status (Some current) = true →
  is_valid_status (Some s) = true →
  transition_error current (Some s) = None →
  s = current ∨ (current, s) ∈ status_steps.
Proof.
  intros Hc Hs. apply valid_status_cases in Hc, Hs.
  destruct Hc as [-> | [-> | [-> | [-> | ->]]]];
    destruct Hs as [-> | [-> | [-> | [-> | ->]]]];
    try discriminate; intros _; try (by left);
    right; unfold status_steps; in_list.
Qed.

(** X10. The life of a booking, over all handlers.  Across any request
    a booking that is still there keeps its status or takes one step:
    Pending to Approved or to Rejected, Approved to Returned, Returned to
    Completed.  Nothing goes back, and a Rejected or Completed booking
    is the same row after the request as before it. *)
Theorem status_moves_one_step ctx req d booking_id booking booking' :
  is_valid_status (Some (Booking.status booking)) = true →
  bookings d !! booking_id = Some booking →
  bookings (handle ctx req d).2 !! booking_id = Some booking' →
  (Booking.status booking' = Booking.status booking
   ∨ (Booking.status booking, Booking.status booking') ∈ status_steps)
  ∧ (Booking.status booking = "Rejected"%string
     ∨ Booking.status booking = "Completed"%string → booking' = booking).
Proof.
  intros Hvalid Hb Hb'.
  destruct (handle_effect ctx req d) as [Heq | Heff].
  { rewrite Heq in Hb'. assert (booking' = booking) as -> by congruence.
    split; [by left|done]. }
  destruct Heff; simpl in Hb';
    try (apply lookup_insert_Some in Hb' as [[<- <-]|[_ Hb']]);
    try (apply lookup_delete_Some in Hb' as [_ Hb']);
    try (apply map_lookup_filter_Some in Hb' as [Hb' _]);
    try (assert (booking' = booking) as -> by congruence; split; [by left|done]);
    simplify_eq; simpl.
  - by rewrite next_id_fresh in Hb.
  - split; [by left|]. intros [?|?]; congruence.
  - split; [by left|]. intros [?|?]; congruence.
  - split; [by left|].
    match goal with H : Booking.status _ ∈ _ |- _ =>
      rewrite !elem_of_cons, elem_of_nil in H end. intuition congruence.
  - split; [|intros [?|?]; congruence].
    right. match goal with H : Booking.status _ = _ |- _ => rewrite H end.
    unfold status_steps. in_list.
  - split.
    + match goal with H : transition_error _ _ = None |- _ =>
        destruct (transition_error_steps _ _ Hvalid ltac:(eassumption) H) end;
        [by left|by right].
    + intros [Ht|Ht]; rewrite Ht in *; discriminate.
Qed.

Lemma status_moves_one_step_witness :
  (Booking.status (Booking.mk 7 1 d_2024_02_01 d_2024_02_10 None "Completed" None "Unpaid")
   = "Returned"%string
   ∨ ("Returned"%string,
      Booking.status
        (Booking.mk 7 1 d_2024_02_01 d_2024_02_10 None "Completed" None "Unpaid"))
     ∈ status_steps).
Proof.
  apply (status_moves_one_step admin (set_status_to 1 "Completed") db_returned 1
           (Booking.mk 7 1 d_2024_02_01 d_2024_02_10 None "Returned" None "Unpaid")
           (Booking.mk 7 1 d_2024_02_01 d_2024_02_10 None "Completed" None "Unpaid")).
  - reflexivity.
  - vm_compute. reflexivity.
  - vm_compute. reflexivity.
Defined.

(** X11. Whatever the request, if before it every booking with a
    payment method or a payment on record is Approved, Returned or
    Completed, then so after it: a method is recorded and a payment is
    taken on Approved bookings only, and such a booking never returns to
    Pending nor becomes Rejected. *)
Theorem payment_only_after_approval ctx req d :
  paid_only_after_approval d →
  paid_only_after_approval (handle ctx req d).2.
Proof.
  intros Hinv. destruct (handle_effect ctx req d) as [-> | Heff]; [done|].
  intros j bj Hj Hpay. destruct Heff; simpl in Hj;
    try (apply lookup_insert_Some in Hj as [[<- <-]|[_ Hj]]);
    try (apply lookup_delete_Some in Hj as [_ Hj]);
    try (apply map_lookup_filter_Some in Hj as [Hj _]);
    try (by eapply Hinv); simpl in *.
  - by destruct Hpay.
  - match goal with H : Booking.status b = _ |- _ => by rewrite H end.
  - match goal with H : Booking.status b = _ |- _ => by rewrite H end.
  - by eapply Hinv.
  - done.
  - match goal with H : bookings d !! _ = Some b |- _ =>
      pose proof (Hinv _ _ H Hpay) as Hbl end.
    apply blocking_cases in Hbl.
    match goal with
    | Hv : bool_decide (s ∈ _) = true, Ht : transition_error _ _ = None |- _ =>
        pose proof (valid_status_cases s Hv) as Hs;
        destruct Hbl as [Hbl | [Hbl | Hbl]]; rewrite Hbl in Ht;
        destruct Hs as [-> | [-> | [-> | [-> | ->]]]]; done
    end.
Qed.

Lemma payment_only_after_approval_witness :
  paid_only_after_approval
    (handle alice (ConfirmationPayment 1 (Some "GCash"%string)) db_bitcoin).2.
Proof.
  apply (payment_only_after_approval alice
           (ConfirmationPayment 1 (Some "GCash"%string)) db_bitcoin).
  intros id b Hb _.
  destruct (decide (id = 1)) as [->|Hne].
  - vm_compute in Hb. by injection Hb as <-.
  - exfalso.
    assert (bookings db_bitcoin !! id = None) as Hn; [|congruence].
    replace (bookings db_bitcoin)
      with (<[1 := Booking.mk 7 1 d_2024_02_01 d_2024_02_10 None
                     "Approved" (Some "Bitcoin"%string) "Unpaid"]>
              (∅ : gmap Z Booking.t))
      by (vm_compute; reflexivity).
    by rewrite lookup_insert_ne.
Defined.

(** ** Submitting and editing *)

(** X12. A logged-in user who submits a valid booking form, with a
    commit that goes through, is refused when a blocking booking of the
    car overlaps the dates, and nothing changes.  Otherwise exactly one
    booking is added, under an identifier that was free: Pending, Unpaid,
    with no payment method, for the user and with the car and dates of
    the form as they are (the car need not exist, the return may precede
    the pick-up).  Every booking that was there is still there, and cars
    and reviews are untouched. *)
Theorem book_spec ctx d form :
  User.is_authenticated (current_user ctx) = true →
  BookingForm.validate_on_submit form = true →
  commit_ok ctx = true →
  let result := book ctx form d in
  let conflict :=
    hasConflict d (BookingForm.car form) (BookingForm.pickup form)
      (BookingForm.return_date form) None in
  (conflict = true → result.1 ≠ Flash "success" "Your booking has been submitted successfully! Please wait for admin approval." ∧ result.2 = d)
  ∧ (conflict = false →
     result.1 = Flash "success" "Your booking has been submitted successfully! Please wait for admin approval."
     ∧ bookings d !! next_id (bookings d) = None
     ∧ bookings result.2
       = <[next_id (bookings d) :=
             Booking.mk (User.id (current_user ctx)) (BookingForm.car form)
               (BookingForm.pickup form) (BookingForm.return_date form)
               (BookingForm.notes form) "Pending" None "Unpaid"]> (bookings d)
     ∧ size (bookings result.2) = S (size (bookings d))
     ∧ (∀ j b, bookings d !! j = Some b → bookings result.2 !! j = Some b)
     ∧ cars result.2 = cars d ∧ reviews result.2 = reviews d).
Proof.
  intros Hauth Hform Hok result conflict.
  unfold result, book, commit. rewrite Hauth, Hform, Hok. fold conflict. simpl.
  split; intros ->; [done|]. simpl.
  pose proof (next_id_fresh (bookings d)) as Hfresh.
  repeat split; try done.
  - by apply map_size_insert_None.
  - intros j b Hj. rewrite lookup_insert_ne; [done|]. congruence.
Qed.

Lemma book_spec_witness :
  size (bookings (book bob (BookingForm.mk true 99 d_2024_02_15 d_2024_02_01 None)
                    db_returned).2)
  = S (size (bookings db_returned)).
Proof.
  destruct (book_spec bob db_returned
              (BookingForm.mk true 99 d_2024_02_15 d_2024_02_01 None)
              eq_refl eq_refl eq_refl) as (_ & Hadd).
  apply Hadd. vm_compute. reflexivity.
Defined.

(** X13. A request that names a booking in its URL leaves every other
    booking, every car, and every review of another booking as it was. *)
Theorem request_touches_only_its_booking ctx req d booking_id :
  request_booking req = Some booking_id →
  (∀ j, j ≠ booking_id → bookings (handle ctx req d).2 !! j = bookings d !! j)
  ∧ cars (handle ctx req d).2 = cars d
  ∧ (∀ rid r, reviews d !! rid = Some r → Review.booking_id r ≠ booking_id →
              reviews (handle ctx req d).2 !! rid = Some r).
Proof.
  intros Hreq.
  destruct (handle_effect ctx req d) as [-> | Heff]; [done|].
  destruct Heff; try discriminate Hreq; simpl in Hreq; injection Hreq as ->; simpl.
  - split; [intros j Hj; by rewrite lookup_insert_ne|done].
  - split; [intros j Hj; by rewrite lookup_insert_ne|done].
  - split; [intros j Hj; by rewrite lookup_insert_ne|done].
  - split; [intros j Hj; by rewrite lookup_delete_ne|done].
  - split; [intros j Hj; by rewrite lookup_insert_ne|]. split; [done|].
    intros rid r Hr _. rewrite lookup_insert_ne; [done|].
    intros Heq. pose proof (next_id_fresh (reviews d)). congruence.
  - split; [intros j Hj; by rewrite lookup_insert_ne|done].
  - split; [intros j Hj; by rewrite lookup_delete_ne|]. split; [done|].
    intros rid r Hr Hne. by apply map_lookup_filter_Some.
Qed.

Lemma request_touches_only_its_booking_witness :
  bookings (handle bob (edit_dates 2 d_2024_02_05 d_2024_02_15) db_before_edit).2 !! 1
  = bookings db_before_edit !! 1.
Proof.
  destruct (request_touches_only_its_booking bob
              (edit_dates 2 d_2024_02_05 d_2024_02_15) db_before_edit 2 eq_refl)
    as (Hb & _).
  apply Hb. discriminate.
Defined.

(** X14. An edit changes the dates and the notes of a booking and
    nothing else in it: the owner, the car, the status, the payment method
    and the payment status are those of before.  A booking that is neither
    Pending nor Approved is not edited at all, and a form without one of
    the dates changes nothing. *)
Theorem edit_booking_keeps_the_rest ctx d booking_id post booking booking' :
  bookings d !! booking_id = Some booking →
  bookings (edit_booking ctx booking_id post d).2 !! booking_id = Some booking' →
  Booking.user_id booking' = Booking.user_id booking
  ∧ Booking.car_id booking' = Booking.car_id booking
  ∧ Booking.status booking' = Booking.status booking
  ∧ Booking.payment_method booking' = Booking.payment_method booking
  ∧ Booking.payment_status booking' = Booking.payment_status booking
  ∧ (Booking.status booking ∉ ["Pending"; "Approved"]%string → booking' = booking)
  ∧ (∀ form, post = Some form →
       EditForm.pickup_date form = NoDate ∨ EditForm.return_date form = NoDate →
       edit_booking ctx booking_id post d
       = (Flash "danger" "Pick-up and return dates are required.", d)
       ∨ booking' = booking).
Proof.
  intros Hb Hb'.
  destruct (edit_booking_effect ctx booking_id post d) as [Heq | Heff].
  { rewrite Heq in Hb'. assert (booking' = booking) as -> by congruence.
    repeat split; try done. intros; by right. }
  inversion Heff as [| | |id b form p r Hl Hu Hs Hp Hr Hreq Hres| | | | | | |];
    subst.
  rewrite <- Hres in Hb'. simpl in Hb'. rewrite lookup_insert_eq in Hb'.
  assert (b = booking) as -> by congruence. injection Hb' as <-. simpl.
  repeat split; try done.
  all: intros form' [= <-] [H|H]; congruence.
Qed.

Lemma edit_booking_keeps_the_rest_witness :
  Booking.status
    (Booking.mk 8 1 d_2024_02_05 d_2024_02_15 None "Approved" None "Unpaid")
  = Booking.status
      (Booking.mk 8 1 d_2024_02_11 d_2024_02_15 None "Approved" None "Unpaid").
Proof.
  apply (edit_booking_keeps_the_rest bob db_before_edit 2
           (Some (EditForm.mk (GoodDate d_2024_02_05) (GoodDate d_2024_02_15) None))
           (Booking.mk 8 1 d_2024_02_11 d_2024_02_15 None "Approved" None "Unpaid")
           (Booking.mk 8 1 d_2024_02_05 d_2024_02_15 None "Approved" None "Unpaid")).
  - vm_compute. reflexivity.
  - vm_compute. reflexivity.
Defined.

(** X15. When the car of a booking has no row, or its price holds
    nothing that converts to a number, the rate is 0 and so is the total
    that the confirmation page computes, however long the booking. *)
Theorem confirmation_total_without_price d booking_id booking :
  Booking.return_date booking < date_max →
  (cars d !! Booking.car_id booking = None
   ∨ ∃ car, cars d !! Booking.car_id booking = Some car
            ∧ float_of_str (re_sub_non_numeric (Car.price car)) = None) →
  confirmation_total d booking_id booking = Some 0%Q.
Proof.
  intros Hmax Hprice.
  destruct (confirmation_total_formula d booking_id booking Hmax) as (S & _ & ->).
  assert (price_per_day d (Booking.car_id booking) = 0%Q) as ->.
  { unfold price_per_day. destruct Hprice as [-> | (car & -> & Hf)]; [done|].
    by rewrite parse_price_unfold, Hf. }
  reflexivity.
Qed.

Lemma confirmation_total_without_price_witness :
  confirmation_total empty_db 1
    (Booking.mk 8 99 d_2024_02_01 d_2024_02_15 None "Pending" None "Unpaid")
  = Some 0%Q.
Proof.
  apply (confirmation_total_without_price empty_db 1
           (Booking.mk 8 99 d_2024_02_01 d_2024_02_15 None "Pending" None "Unpaid")).
  - reflexivity.
  - left. reflexivity.
Defined.

(** * Further helper functions *)

(** ** Formatting and parsing an amount *)

Lemma app_String (c : ascii) (s t : string) :
  (String c s ++ t)%string = String c (s ++ t)%string.
Proof. reflexivity. Qed.

Lemma re_sub_non_numeric_app (s1 s2 : string) :
  re_sub_non_numeric (s1 ++ s2)%string
  = (re_sub_non_numeric s1 ++ re_sub_non_numeric s2)%string.
Proof.
  induction s1 as [|c s1 IH]; [done|]. simpl.
  destruct (is_price_char c); simpl; by rewrite IH.
Qed.














(** ** Uploaded file names *)

Lemma after_last_dot_app (stem ext : string) :
  after_last_dot ext = None →
  after_last_dot (stem ++ String "." ext)%string = Some ext.
Proof.
  intros Hext. induction stem as [|c stem IH].
  - change (after_last_dot (String "." ext) = Some ext). simpl. by rewrite Hext.
  - rewrite app_String. simpl. by rewrite IH.
Qed.

Lemma after_last_dot_Some (s ext : string) :
  after_last_dot s = Some ext →
  ∃ stem, s = (stem ++ String "." ext)%string.
Proof.
  revert ext. induction s as [|c s IH]; intros ext; simpl; [done|].
  destruct (after_last_dot s) as [e|].
  - intros [= <-]. destruct (IH e eq_refl) as (stem & ->).
    by exists (String c stem).
  - case_bool_decide as Hc; [|done]. intros [= <-]. subst c. by exists ""%string.
Qed.

Lemma lower_char_dot (c : ascii) : lower_char c = "."%char ↔ c = "."%char.
Proof.
  destruct c as [[] [] [] [] [] [] [] []]; vm_compute; split; congruence.
Qed.

Lemma after_last_dot_lower (s : string) :
  after_last_dot (lower s) = None → after_last_dot s = None.
Proof.
  induction s as [|c s IH]; [done|]. simpl.
  destruct (after_last_dot (lower s)); [done|]. rewrite IH by done.
  case_bool_decide as Hc; [done|]. intros _.
  rewrite bool_decide_eq_false_2; [done|]. by rewrite <- lower_char_dot.
Qed.

(** X17. A file name is allowed exactly when it ends with a point
    followed by png, jpg, jpeg, gif or pdf, in any mix of upper and lower
    case: only what follows the last point counts, so [photo.PNG] and
    [.pdf] pass and [photo.png.exe], [png] and [photo.] do not. *)
Theorem allowed_file_spec (filename : string) :
  allowed_file filename = true ↔
  ∃ stem ext,
    filename = (stem ++ String "." ext)%string
    ∧ lower ext ∈ ALLOWED_EXTENSIONS.
Proof.
  unfold allowed_file. split.
  - destruct (after_last_dot filename) as [ext|] eqn:E; [|done].
    intros H%bool_decide_eq_true. apply after_last_dot_Some in E as (stem & ->).
    by exists stem, ext.
  - intros (stem & ext & -> & Hin).
    rewrite after_last_dot_app; [by apply bool_decide_eq_true|].
    apply after_last_dot_lower.
    unfold ALLOWED_EXTENSIONS in Hin. rewrite !elem_of_cons, elem_of_nil in Hin.
    repeat destruct Hin as [-> | Hin]; done.
Qed.

(** ** The calendar endpoints *)

Lemma elem_of_blocking_bookings_of d car_id id b :
  (id, b) ∈ blocking_bookings_of d car_id ↔
  bookings d !! id = Some b
  ∧ Booking.car_id b = car_id
  ∧ Booking.status b ∈ ["Approved"; "Returned"; "Completed"]%string.
Proof.
  unfold blocking_bookings_of.
  rewrite list_elem_of_filter, elem_of_map_to_list, blocking_spec. simpl. tauto.
Qed.

(** X18. For a car that exists, the ranges that [api_car_booked]
    publishes are the dates of the bookings of the car that are Approved,
    Returned or Completed, and [book] refuses a pick-up and a return
    exactly when they meet one of the published ranges. *)
Theorem api_car_booked_is_what_book_refuses d car_id car :
  cars d !! car_id = Some car →
  ∃ ranges,
    api_car_booked car_id d = Some ranges
    ∧ (∀ from to, (from, to) ∈ ranges ↔
         ∃ id b, bookings d !! id = Some b
                 ∧ Booking.car_id b = car_id
                 ∧ Booking.status b ∈ ["Approved"; "Returned"; "Completed"]%string
                 ∧ from = Booking.pickup_date b ∧ to = Booking.return_date b)
    ∧ (∀ pickup return_,
         hasConflict d car_id pickup return_ None = true ↔
         ∃ from to, (from, to) ∈ ranges ∧ to >= pickup ∧ from <= return_).
Proof.
  intros Hcar. unfold api_car_booked. rewrite Hcar. eexists. split; [done|].
  assert (Hranges : ∀ from to,
    (from, to) ∈ (λ b : Z * Booking.t,
                    (Booking.pickup_date b.2, Booking.return_date b.2))
                 <$> blocking_bookings_of d car_id ↔
    ∃ id b, bookings d !! id = Some b
            ∧ Booking.car_id b = car_id
            ∧ Booking.status b ∈ ["Approved"; "Returned"; "Completed"]%string
            ∧ from = Booking.pickup_date b ∧ to = Booking.return_date b).
  { intros from to. rewrite list_elem_of_fmap. split.
    - intros ([id b] & [= -> ->] & Hin).
      apply elem_of_blocking_bookings_of in Hin as (Hb & Hc & Hs).
      exists id, b. repeat split; done.
    - intros (id & b & Hb & Hc & Hs & -> & ->). exists (id, b).
      split; [done|]. by apply elem_of_blocking_bookings_of. }
  split; [exact Hranges|].
  intros pickup return_. rewrite hasConflict_exists. split.
  - intros (id & b & Hb & Hc & _ & Hs & H1 & H2).
    exists (Booking.pickup_date b), (Booking.return_date b).
    split; [|done]. apply Hranges. by exists id, b.
  - intros (from & to & Hin & H1 & H2).
    apply Hranges in Hin as (id & b & Hb & Hc & Hs & -> & ->).
    by exists id, b.
Qed.

Lemma api_car_booked_is_what_book_refuses_witness :
  ∃ ranges, api_car_booked 1 db_before_edit = Some ranges
            ∧ (d_2024_02_01, d_2024_02_10) ∈ ranges.
Proof.
  destruct (api_car_booked_is_what_book_refuses db_before_edit 1 (Car.mk "₱2,000"))
    as (ranges & Heq & Hin & _).
  { vm_compute. reflexivity. }
  exists ranges. split; [exact Heq|]. apply Hin.
  exists 1, (Booking.mk 7 1 d_2024_02_01 d_2024_02_10 None "Approved" None "Unpaid").
  split; [vm_compute; reflexivity|]. split; [reflexivity|].
  split; [apply list_elem_of_here|]. split; reflexivity.
Defined.

Lemma booked_while_exit (c e : date) (acc : list date) :
  e < c → booked_while c e acc = Some acc.
Proof.
  intros H. rewrite booked_while_equation_1.
  destruct (decide (c ≤ e)); [lia|done].
Qed.

Lemma booked_while_step (c e : date) (acc : list date) :
  c ≤ e → c < date_max →
  booked_while c e acc = booked_while (c + 1) e (acc ++ [c]).
Proof.
  intros H1 H2. rewrite booked_while_equation_1.
  destruct (decide (c ≤ e)); [|lia]. simpl.
  destruct (decide (c < date_max)); [done|lia].
Qed.

Lemma booked_while_overflow (c e : date) (acc : list date) :
  c ≤ e → date_max ≤ c → booked_while c e acc = None.
Proof.
  intros H1 H2. rewrite booked_while_equation_1.
  destruct (decide (c ≤ e)); [|lia]. simpl.
  destruct (decide (c < date_max)); [lia|done].
Qed.

Lemma booked_while_Some (c e : date) (acc : list date) :
  e < c ∨ e < date_max →
  ∃ l, booked_while c e acc = Some l ∧ ∀ day, day ∈ l ↔ day ∈ acc ∨ c ≤ day ≤ e.
Proof.
  remember (Z.to_nat (e + 1 - c)) as n eqn:Hn.
  revert c acc Hn. induction n as [|n IH]; intros c acc Hn Hb.
  - exists acc. split; [apply booked_while_exit; lia|]. intros day. split; [auto|].
    intros [?|?]; [done|lia].
  - assert (c ≤ e) by lia. assert (c < date_max) by lia.
    destruct (IH (c + 1) (acc ++ [c])) as (l & Hl & Hin); [lia|lia|].
    exists l. split; [by rewrite booked_while_step|].
    intros day. rewrite Hin, elem_of_app, list_elem_of_singleton.
    intuition lia.
Qed.

Lemma booked_while_None (c e : date) (acc : list date) :
  c ≤ e → date_max ≤ e → booked_while c e acc = None.
Proof.
  remember (Z.to_nat (date_max - c)) as n eqn:Hn.
  revert c acc Hn. induction n as [|n IH]; intros c acc Hn H1 H2.
  - apply booked_while_overflow; lia.
  - rewrite booked_while_step by lia. apply IH; lia.
Qed.

Lemma booked_dates_loop_Some (rows : list (Z * Booking.t)) (acc : list date) :
  (∀ row, row ∈ rows → Booking.return_date row.2 < date_max) →
  ∃ l, booked_dates_loop rows acc = Some l
       ∧ ∀ day, day ∈ l ↔
           day ∈ acc
           ∨ ∃ row, row ∈ rows
               ∧ Booking.pickup_date row.2 ≤ day ≤ Booking.return_date row.2.
Proof.
  revert acc. induction rows as [|row rows IH]; intros acc Hmax; simpl.
  - exists acc. split; [done|]. intros day. split; [auto|].
    intros [?|(row & Hrow & _)]; [done|]. by apply elem_of_nil in Hrow.
  - destruct (booked_while_Some (Booking.pickup_date row.2)
                (Booking.return_date row.2) acc) as (l1 & -> & H1).
    { right. apply Hmax, list_elem_of_here. }
    destruct (IH l1) as (l & Hl & H2).
    { intros r Hr. by apply Hmax, list_elem_of_further. }
    exists l. split; [done|]. intros day. rewrite H2, H1. split.
    + intros [[?|?]|(r & Hr & ?)]; [by left| |].
      * right. exists row. split; [apply list_elem_of_here|done].
      * right. exists r. split; [by apply list_elem_of_further|done].
    + intros [?|(r & Hr & ?)]; [by left; left|].
      apply elem_of_cons in Hr as [->|Hr]; [by left; right|].
      right. by exists r.
Qed.

Lemma booked_dates_loop_None (rows : list (Z * Booking.t)) (acc : list date) row :
  row ∈ rows →
  Booking.pickup_date row.2 ≤ Booking.return_date row.2 →
  date_max ≤ Booking.return_date row.2 →
  booked_dates_loop rows acc = None.
Proof.
  intros Hin Hp Hr. revert acc.
  induction rows as [|r rows IH]; intros acc; [by apply elem_of_nil in Hin|].
  simpl. apply elem_of_cons in Hin as [<-|Hin].
  - by rewrite booked_while_None.
  - destruct (booked_while _ _ _); [by apply IH|done].
Qed.

(** X19. When every blocking booking of the car returns before
    [date.max], [get_booked_dates] answers a logged-in user with a list
    of days in which a day occurs exactly when it lies in a booking of the
    car that is Approved, Returned or Completed, which is exactly when
    [book] refuses a booking of that one day. *)
Theorem get_booked_dates_are_the_refused_days ctx d car_id :
  User.is_authenticated (current_user ctx) = true →
  (∀ id b, bookings d !! id = Some b → Booking.car_id b = car_id →
           blocking (Booking.status b) = true →
           Booking.return_date b < date_max) →
  ∃ booked_dates,
    get_booked_dates ctx car_id d = BookedDates booked_dates
    ∧ (∀ day, day ∈ booked_dates ↔
         ∃ id b, bookings d !! id = Some b
                 ∧ Booking.car_id b = car_id
                 ∧ Booking.status b ∈ ["Approved"; "Returned"; "Completed"]%string
                 ∧ Booking.pickup_date b ≤ day ≤ Booking.return_date b)
    ∧ (∀ day, day ∈ booked_dates ↔ hasConflict d car_id day day None = true).
Proof.
  intros Hauth Hmax. unfold get_booked_dates. rewrite Hauth. simpl.
  destruct (booked_dates_loop_Some (blocking_bookings_of d car_id) [])
    as (l & -> & Hl).
  { intros [id b] Hin. apply elem_of_blocking_bookings_of in Hin as (Hb & Hc & Hs).
    apply (Hmax id b Hb Hc). by apply blocking_spec. }
  exists l. split; [done|].
  assert (Hdays : ∀ day, day ∈ l ↔
    ∃ id b, bookings d !! id = Some b
            ∧ Booking.car_id b = car_id
            ∧ Booking.status b ∈ ["Approved"; "Returned"; "Completed"]%string
            ∧ Booking.pickup_date b ≤ day ≤ Booking.return_date b).
  { intros day. rewrite Hl. split.
    - intros [H|([id b] & Hin & Hday)]; [by apply elem_of_nil in H|].
      apply elem_of_blocking_bookings_of in Hin as (Hb & Hc & Hs).
      by exists id, b.
    - intros (id & b & Hb & Hc & Hs & Hday). right. exists (id, b).
      split; [|done]. by apply elem_of_blocking_bookings_of. }
  split; [exact Hdays|].
  intros day. rewrite Hdays, hasConflict_exists. split.
  - intros (id & b & Hb & Hc & Hs & Hday). exists id, b.
    repeat split; try done; lia.
  - intros (id & b & Hb & Hc & _ & Hs & H1 & H2). exists id, b.
    repeat split; try done; lia.
Qed.

Lemma get_booked_dates_are_the_refused_days_witness :
  ∃ booked_dates,
    get_booked_dates alice 1 db_returned = BookedDates booked_dates
    ∧ d_2024_02_05 ∈ booked_dates.
Proof.
  destruct (get_booked_dates_are_the_refused_days alice db_returned 1 eq_refl)
    as (l & Heq & _ & Hin).
  - intros id b Hb _ _.
    destruct (decide (id = 1)) as [->|Hne].
    + vm_compute in Hb. injection Hb as <-. reflexivity.
    + exfalso.
      assert (bookings db_returned !! id = None) as Hn; [|congruence].
      replace (bookings db_returned)
        with (<[1 := Booking.mk 7 1 d_2024_02_01 d_2024_02_10 None
                       "Returned" None "Unpaid"]> (∅ : gmap Z Booking.t))
        by (vm_compute; reflexivity).
      by rewrite lookup_insert_ne.
  - exists l. split; [exact Heq|]. apply Hin. vm_compute. reflexivity.
Defined.

(** X20. One blocking booking of the car that runs up to [date.max]
    is enough for [get_booked_dates] to fail: the loop steps past the last
    date, the exception is not caught, and no day is answered. *)
Theorem get_booked_dates_fails_at_date_max ctx d car_id booking_id booking :
  User.is_authenticated (current_user ctx) = true →
  bookings d !! booking_id = Some booking →
  Booking.car_id booking = car_id →
  Booking.status booking ∈ ["Approved"; "Returned"; "Completed"]%string →
  Booking.pickup_date booking ≤ Booking.return_date booking →
  date_max ≤ Booking.return_date booking →
  get_booked_dates ctx car_id d = BookedError.
Proof.
  intros Hauth Hb Hc Hs Hp Hr. unfold get_booked_dates. rewrite Hauth. simpl.
  rewrite (booked_dates_loop_None _ [] (booking_id, booking)); try done.
  by apply elem_of_blocking_bookings_of.
Qed.

Lemma get_booked_dates_fails_at_date_max_witness :
  get_booked_dates bob 1 db_date_max = BookedError.
Proof.
  apply (get_booked_dates_fails_at_date_max bob db_date_max 1 1
           (Booking.mk 7 1 (date_max - 2) date_max None "Approved" None "Unpaid")).
  - reflexivity.
  - vm_compute. reflexivity.
  - reflexivity.
  - apply list_elem_of_here.
  - vm_compute. discriminate.
  - vm_compute. discriminate.
Defined.

(** * Accounts *)

Lemma find_by_email_Some users email id user :
  find_by_email users email = Some (id, user) →
  users !! id = Some user ∧ Account.email user = email.
Proof.
  unfold find_by_email. intros H.
  apply head_Some_elem_of, list_elem_of_filter in H as [He Hin].
  by apply elem_of_map_to_list in Hin.
Qed.

Lemma find_by_email_None users email :
  find_by_email users email = None ↔
  ∀ id user, users !! id = Some user → Account.email user ≠ email.
Proof.
  unfold find_by_email. rewrite head_None. split.
  - intros Hnil id user Hu He.
    assert (Hin : (id, user) ∈ filter (λ row : Z * Account.t, Account.email row.2 = email)
                    (map_to_list users)).
    { apply list_elem_of_filter. split; [done|]. by apply elem_of_map_to_list. }
    rewrite Hnil in Hin. by apply elem_of_nil in Hin.
  - intros H.
    destruct (filter _ _) as [|[id user] l] eqn:E; [done|].
    assert (Hin : (id, user) ∈ filter (λ row : Z * Account.t, Account.email row.2 = email)
                    (map_to_list users)) by (rewrite E; apply list_elem_of_here).
    apply list_elem_of_filter in Hin as [HP Hin].
    apply elem_of_map_to_list in Hin. by apply H in Hin.
Qed.

(** X21. The built-in credentials.  Whatever accounts exist and whatever
    password is stored for it, a valid login form with the email
    [admin@test.com] and the password [password123] logs the client in,
    when the commit goes through, as an account with that email that is
    an admin after the request: the account is created if there is none
    and made an admin if it was not.  The stored hash is not consulted,
    and every other account is left as it was. *)
Theorem login_with_built_in_credentials check_password_hash hashed form users session :
  LoginForm.validate_on_submit form = true →
  LoginForm.email form = "admin@test.com"%string →
  LoginForm.password form = "password123"%string →
  ∃ id user,
    login check_password_hash true hashed form users session
    = (Flash "success" "Logged in successfully!", <[id := user]> users, Some id)
    ∧ Account.email user = "admin@test.com"%string
    ∧ Account.is_admin user = true
    ∧ (∀ old, users !! id = Some old →
         Account.email old = "admin@test.com"%string
         ∧ Account.password user = Account.password old
         ∧ Account.name user = Account.name old)
    ∧ (users !! id = None →
         (∀ j other, users !! j = Some other →
                     Account.email other ≠ "admin@test.com"%string)
         ∧ Account.password user = hashed).
Proof.
  intros Hv He Hp. unfold login. rewrite Hv, He, Hp. simpl.
  destruct (find_by_email users "admin@test.com") as [[id old]|] eqn:Hf.
  - apply find_by_email_Some in Hf as [Hl Hmail].
    eexists id, _. split; [done|]. simpl.
    split; [exact Hmail|]. split; [done|]. split.
    + intros o Ho. assert (o = old) as -> by congruence. done.
    + intros Hn. congruence.
  - eexists (next_id users), _. split; [done|]. simpl.
    split; [done|]. split; [done|]. split.
    + intros o Ho. by rewrite next_id_fresh in Ho.
    + intros _. split; [|done]. by apply find_by_email_None.
Qed.

Lemma login_with_built_in_credentials_witness :
  ∃ id user,
    login (λ _ _, false) true "h2"
      (LoginForm.mk true "admin@test.com" "password123")
      {[ 5 := Account.mk "Mallory" "admin@test.com" "h1" false ]} None
    = (Flash "success" "Logged in successfully!",
       <[id := user]> {[ 5 := Account.mk "Mallory" "admin@test.com" "h1" false ]},
       Some id)
    ∧ Account.is_admin user = true.
Proof.
  destruct (login_with_built_in_credentials (λ _ _, false) "h2"
              (LoginForm.mk true "admin@test.com" "password123")
              {[ 5 := Account.mk "Mallory" "admin@test.com" "h1" false ]} None
              eq_refl eq_refl eq_refl)
    as (id & user & Heq & _ & Hadmin & _).
  by exists id, user.
Defined.

(** X22. Registration, when the fields of the form are valid and the
    commit goes through.  An email that an account already has changes
    nothing.  Otherwise one account is added under an identifier that was
    free, with the name, the email and the hash given, and it is never an
    admin; every account that was there is as before. *)
Theorem register_spec hashed form users :
  RegistrationForm.fields_valid form = true →
  let result := register true hashed form users in
  ((∃ id user, users !! id = Some user
               ∧ Account.email user = RegistrationForm.email form) →
   result = (Page None, users))
  ∧ ((∀ id user, users !! id = Some user →
                 Account.email user ≠ RegistrationForm.email form) →
     users !! next_id users = None
     ∧ result.2
       = <[next_id users :=
             Account.mk (RegistrationForm.name form) (RegistrationForm.email form)
               hashed false]> users
     ∧ (∀ j other, users !! j = Some other → result.2 !! j = Some other))
  ∧ (∀ id user, result.2 !! id = Some user → users !! id = None →
                Account.is_admin user = false).
Proof.
  intros Hv result. unfold result, register. rewrite Hv. simpl.
  pose proof (next_id_fresh users) as Hfresh.
  destruct (find_by_email users (RegistrationForm.email form)) as [[id u]|] eqn:Hf.
  - apply find_by_email_Some in Hf as [Hl Hmail]. simpl.
    split; [done|]. split.
    + intros Hnone. by destruct (Hnone id u Hl).
    + intros j o Ho Hn. congruence.
  - simpl. split; [|split].
    + intros (id & u & Hl & Hmail).
      rewrite find_by_email_None in Hf. by destruct (Hf id u Hl).
    + intros _. repeat split; try done.
      intros j o Ho. rewrite lookup_insert_ne; [done|]. congruence.
    + intros j o Ho Hn.
      apply lookup_insert_Some in Ho as [[_ <-]|[_ Ho]]; [done|congruence].
Qed.

Lemma register_spec_witness :
  (register true "h" (RegistrationForm.mk true "Eve" "admin@test.com" "pw") ∅).2
  = <[next_id (∅ : gmap Z Account.t) := Account.mk "Eve" "admin@test.com" "h" false]> ∅.
Proof.
  destruct (register_spec "h" (RegistrationForm.mk true "Eve" "admin@test.com" "pw")
              ∅ eq_refl) as (_ & Hnew & _).
  destruct Hnew as (_ & Hres & _); [|exact Hres].
  intros id user Hu. by rewrite lookup_empty in Hu.
Defined.

(** X23. An admin cannot delete the account they are logged in with:
    whatever user is named, the account of the current user is the same
    after the request.  Any other account that exists is deleted, when
    the commit goes through, and the remaining accounts are untouched; an
    account that does not exist is a 404. *)
Theorem admin_delete_user_spec ctx user_id users :
  is_admin_user ctx = true →
  commit_ok ctx = true →
  let result := admin_delete_user ctx user_id users in
  result.2 !! User.id (current_user ctx) = users !! User.id (current_user ctx)
  ∧ (user_id ≠ User.id (current_user ctx) →
     is_Some (users !! user_id) →
     result = (Flash "success" "User deleted successfully!", delete user_id users)
     ∧ result.2 !! user_id = None
     ∧ ∀ j, j ≠ user_id → result.2 !! j = users !! j)
  ∧ (users !! user_id = None → result = (NotFound, users)).
Proof.
  intros Ha Hok result. unfold result, admin_delete_user. rewrite Ha, Hok. simpl.
  destruct (users !! user_id) as [u|] eqn:Hu.
  - case_bool_decide as Hself; simpl.
    + split; [done|]. split; [done|done].
    + split; [by rewrite lookup_delete_ne|]. split; [|done].
      intros _ _. split; [done|]. split; [apply lookup_delete_eq|].
      intros j Hj. by rewrite lookup_delete_ne.
  - split; [done|]. split; [|done]. intros _ [? [=]].
Qed.

Lemma admin_delete_user_spec_witness :
  (admin_delete_user admin 1
     {[ 1 := Account.mk "Admin" "admin@test.com" "h" true ]}).2 !! 1
  = Some (Account.mk "Admin" "admin@test.com" "h" true).
Proof.
  destruct (admin_delete_user_spec admin 1
              {[ 1 := Account.mk "Admin" "admin@test.com" "h" true ]}
              eq_refl eq_refl) as (Hself & _).
  etransitivity; [exact Hself|]. vm_compute. reflexivity.
Defined.

(** * Prices and bookings *)

(** X24. The price of a booking is not fixed when it is made.  After an
    admin has edited a car, the confirmation page of every booking of the
    car, old or new, is computed from the new price text, with the same
    deducted days as before the edit; the bookings, the reviews and the
    rates of the other cars are untouched. *)
Theorem admin_edit_car_reprices_bookings ctx d car_id car form :
  is_admin_user ctx = true →
  commit_ok ctx = true →
  cars d !! car_id = Some car →
  CarForm.validate_on_submit form = true →
  let d' := (admin_edit_car ctx car_id form d).2 in
  bookings d' = bookings d
  ∧ reviews d' = reviews d
  ∧ price_per_day d' car_id = parse_price (CarForm.price form)
  ∧ (∀ other, other ≠ car_id → price_per_day d' other = price_per_day d other)
  ∧ (∀ booking_id booking,
       Booking.car_id booking = car_id →
       Booking.return_date booking < date_max →
       ∃ S : gset Z,
         (∀ day, day ∈ S ↔ deducted_day d booking_id booking day)
         ∧ confirmation_total d' booking_id booking
           = Some (round2 (parse_price (CarForm.price form)
                           * inject_Z (Z.max 1
                               (total_days (Booking.pickup_date booking)
                                           (Booking.return_date booking)
                                - Z.of_nat (size S)))))).
Proof.
  intros Ha Hok Hcar Hv d'.
  assert (Hd' : d' = mkdb (<[car_id := Car.mk (CarForm.price form)]> (cars d))
                       (bookings d) (reviews d)).
  { unfold d', admin_edit_car, commit. by rewrite Ha, Hcar, Hv, Hok. }
  assert (Hprice : price_per_day d' car_id = parse_price (CarForm.price form)).
  { rewrite Hd'. unfold price_per_day. simpl. by rewrite lookup_insert_eq. }
  rewrite Hd' at 1 2. split; [done|]. split; [done|]. split; [exact Hprice|]. split.
  - intros other Hne. rewrite Hd'. unfold price_per_day. simpl.
    by rewrite lookup_insert_ne.
  - intros booking_id booking Hc Hmax.
    destruct (confirmation_total_formula d' booking_id booking Hmax)
      as (S & HS & ->).
    exists S. split.
    + intros day. rewrite HS. unfold deducted_day. by rewrite Hd'.
    + by rewrite Hc, Hprice.
Qed.

Lemma admin_edit_car_reprices_bookings_witness :
  price_per_day (admin_edit_car admin 1 (CarForm.mk true "3,500") db_returned).2 1
  = parse_price "3,500".
Proof.
  apply (admin_edit_car_reprices_bookings admin db_returned 1 (Car.mk "₱2,000")
           (CarForm.mk true "3,500")); reflexivity.
Defined.
